(** * DuckDB dialect spec generator (spec_duckdb.py)

    A shallow embedding of the marimo notebook [src/dialects/duckdb/spec_duckdb.py]:
    the cells that build SQL text, the catalog queries they send to the engine,
    the function selector, and the export cell with its file writes.

    Strings are sequences of one-byte characters compared by code, which is
    how the engine's default (binary) collation and Python compare them on
    ASCII names.  The SQL engine, the data-frame library and the operating
    system are external to the notebook; the parts of them the cells rely on
    are modelled next to the cell that uses them, each with the behaviour it
    documents. *)

From Stdlib Require Import Ascii String.
From stdpp Require Import gmap strings list sorting.

(** ** Python string operations used by the cells *)

Module Str.

(** [sep.join(parts)] *)
Definition join (sep : string) (parts : list string) : string :=
  String.concat sep parts.

(** [s.startswith(prefix)], also polars' [str.starts_with] *)
Fixpoint starts_with (s prefix : string) {struct prefix} : bool :=
  match prefix, s with
  | EmptyString, _ => true
  | String _ _, EmptyString => false
  | String p prefix', String c s' => Ascii.eqb c p && starts_with s' prefix'
  end.

(** [s.split(sep)] for a one-character separator: the pieces between
    separators, empty pieces included, so the empty string gives one empty
    piece. *)
Fixpoint split_on (sep : ascii) (s : string) : list string :=
  match s with
  | EmptyString => [EmptyString]
  | String c s' =>
      if Ascii.eqb c sep then EmptyString :: split_on sep s'
      else match split_on sep s' with
           | [] => [String c EmptyString]
           | piece :: pieces => String c piece :: pieces
           end
  end.

(** [ch.isspace()] on code points below 256 *)
Definition isspace (c : ascii) : bool :=
  let n := nat_of_ascii c in
  ((9 <=? n) && (n <=? 13)) || ((28 <=? n) && (n <=? 32))
  || (n =? 133) || (n =? 160).

Fixpoint lstrip (s : string) : string :=
  match s with
  | EmptyString => EmptyString
  | String c s' => if isspace c then lstrip s' else s
  end.

(** drops trailing whitespace: a character stays when something that
    stays follows it, or when it is not whitespace itself *)
Fixpoint rstrip (s : string) : string :=
  match s with
  | EmptyString => EmptyString
  | String c s' =>
      match rstrip s' with
      | EmptyString => if isspace c then EmptyString else String c EmptyString
      | rest => String c rest
      end
  end.

(** [s.strip()] *)
Definition strip (s : string) : string := rstrip (lstrip s).

(** every character of [s] satisfies [p] *)
Fixpoint all_chars (p : ascii -> bool) (s : string) : bool :=
  match s with
  | EmptyString => true
  | String c s' => p c && all_chars p s'
  end.

Definition has_char (c : ascii) (s : string) : bool :=
  negb (all_chars (fun d => negb (Ascii.eqb d c)) s).

End Str.

(** ** The SQL fragment the notebook sends to the engine *)

Module Sql.

(** [value LIKE pattern], without an ESCAPE clause: [%] matches any run of
    characters, [_] any single character, every other character itself,
    and the pattern has to cover the whole value.  Matching is
    case-sensitive. *)
Fixpoint like (pattern : string) : string -> bool :=
  match pattern with
  | EmptyString =>
      fun value => match value with EmptyString => true | _ => false end
  | String p pattern' =>
      if Ascii.eqb p "%"%char then
        fix any_run (value : string) : bool :=
          like pattern' value
          || match value with
             | EmptyString => false
             | String _ value' => any_run value'
             end
      else if Ascii.eqb p "_"%char then
        fun value =>
          match value with
          | EmptyString => false
          | String _ value' => like pattern' value'
          end
      else
        fun value =>
          match value with
          | EmptyString => false
          | String c value' => Ascii.eqb c p && like pattern' value'
          end
  end.

(** [s] with the leading [lead] removed, when [s] starts with it *)
Fixpoint strip_lead (lead s : string) {struct lead} : option string :=
  match lead, s with
  | EmptyString, _ => Some s
  | String _ _, EmptyString => None
  | String l lead', String c s' =>
      if Ascii.eqb c l then strip_lead lead' s' else None
  end.

(** a string literal whose opening quote was read: its body runs to the
    next quote; returns the body and the text after the closing quote *)
Fixpoint read_literal (s : string) : option (string * string) :=
  match s with
  | EmptyString => None
  | String c s' =>
      if Ascii.eqb c "'"%char then Some (EmptyString, s')
      else match read_literal s' with
           | Some (body, rest) => Some (String c body, rest)
           | None => None
           end
  end.

(** The conditions the notebook generates have the shape
    [column NOT LIKE 'pattern' AND column NOT LIKE 'pattern' ...].
    The reader accepts exactly that shape over the one column the query
    exposes and returns the patterns; anything else, the empty text after
    [WHERE] included, is a syntax error.  Patterns holding a quote are
    outside this fragment. *)
Fixpoint parse_where (fuel : nat) (column clause : string)
  : option (list string) :=
  match fuel with
  | O => None
  | S fuel' =>
      match strip_lead (column +:+ " NOT LIKE '") clause with
      | None => None
      | Some after_quote =>
          match read_literal after_quote with
          | None => None
          | Some (pattern, EmptyString) => Some [pattern]
          | Some (pattern, rest) =>
              match strip_lead " AND " rest with
              | None => None
              | Some clause' =>
                  match parse_where fuel' column clause' with
                  | None => None
                  | Some patterns => Some (pattern :: patterns)
                  end
              end
          end
      end
  end.

(** a row passes the conjunction when its value matches none of the patterns *)
Definition passes (patterns : list string) (value : string) : bool :=
  forallb (fun pattern => negb (like pattern value)) patterns.

(** [WHERE clause] over rows whose [column] holds a name: the predicate on
    names, or [None] for a clause the engine rejects. *)
Definition where_ (column clause : string) : option (string -> bool) :=
  match parse_where (S (String.length clause)) column clause with
  | None => None
  | Some patterns => Some (passes patterns)
  end.

End Sql.

(** ** [filter_keywords_query] *)

Definition like_conditions (column : string) (EXCLUDED_KEYWORDS : list string)
  : list string :=
  map (fun kw => column +:+ " NOT LIKE '" +:+ kw +:+ "%'") EXCLUDED_KEYWORDS.

Definition filter_keywords_query (column : string)
    (EXCLUDED_KEYWORDS : list string) : string :=
  let where_clause := Str.join " AND " (like_conditions column EXCLUDED_KEYWORDS) in
  where_clause.

Definition EXCLUDED_KEYWORDS : list string :=
  ["__internal"; "icu"; "has_"; "pg_"; "allocator"].

(** ** The catalog the engine exposes *)

(** one row of [duckdb_functions()], with the columns the notebook reads *)
Record function_row := {
  function_name : string;
  parameters : list string;
  return_type : option string;
  parameter_types : list string;
  description : option string;
  alias_of : option string;
  examples : option (list string)
}.

(** The four catalog views, each in the engine's row order.  Their name
    columns ([keyword_name], [name], [function_name], [type_name]) are never
    NULL. *)
Record catalog := {
  duckdb_keywords : list string;
  duckdb_settings : list string;
  duckdb_functions : list function_row;
  duckdb_types : list string
}.

(** ** Aggregates of the engine *)

Module Agg.

(** the distinct values in ascending order *)
Definition distinct_ordered (values : list string) : list string :=
  merge_sort String.le (remove_dups values).

(** the names joined by one space; NULL when there is none *)
Definition join_or_null (names : list string) : option string :=
  match names with
  | [] => None
  | _ => Some (Str.join " " names)
  end.

(** [STRING_AGG(DISTINCT v, ' ' ORDER BY v)] *)
Definition string_agg (values : list string) : option string :=
  join_or_null (distinct_ordered values).

(** [MAX] skips NULLs and is NULL when nothing else is left *)
Definition max {A} (leb : A -> A -> bool) (values : list (option A))
  : option A :=
  foldl (fun acc v =>
           match acc, v with
           | None, _ => v
           | Some _, None => acc
           | Some a, Some b => if leb a b then Some b else Some a
           end) None values.

(** lists compare element by element, a proper prefix below its extensions *)
Fixpoint list_leb (l1 l2 : list string) : bool :=
  match l1, l2 with
  | [], _ => true
  | _ :: _, [] => false
  | x :: l1', y :: l2' =>
      match String.compare x y with
      | Lt => true
      | Eq => list_leb l1' l2'
      | Gt => false
      end
  end.

(** [list[1]]: the first element, NULL for NULL and for the empty list *)
Definition first {A} (l : option (list A)) : option A :=
  match l with
  | Some (x :: _) => Some x
  | _ => None
  end.

End Agg.

(** ** The [functions] cell: one record per function name *)

Record function_overloads := {
  fo_function_name : string;
  parameter_overloads : list (list string);
  return_type_overloads : list (option string);
  parameter_types_overloads : list (list string);
  fo_description : option string;
  fo_alias_of : option string;
  example : option string
}.

(** the rows of [function_details] that share [name], in row order *)
Definition group_of (name : string) (function_details : list function_row)
  : list function_row :=
  filter (fun r => function_name r = name) function_details.

Definition aggregate_group (name : string) (group : list function_row)
  : function_overloads :=
  {| fo_function_name := name;
     parameter_overloads := map parameters group;
     return_type_overloads := map return_type group;
     parameter_types_overloads := map parameter_types group;
     fo_description := Agg.max String.leb (map description group);
     fo_alias_of := Agg.max String.leb (map alias_of group);
     example := Agg.first (Agg.max Agg.list_leb (map examples group)) |}.

(** [SELECT ... FROM function_details WHERE <filter> GROUP BY function_name
    ORDER BY function_name]; [None] when the engine rejects the statement. *)
Definition functions (c : catalog) (EXCLUDED_KEYWORDS : list string)
  : option (list function_overloads) :=
  match Sql.where_ "function_name"
          (filter_keywords_query "function_name" EXCLUDED_KEYWORDS) with
  | None => None
  | Some keep =>
      let function_details :=
        filter (fun r => keep (function_name r)) (duckdb_functions c) in
      let names := Agg.distinct_ordered (map function_name function_details) in
      Some (map (fun name => aggregate_group name (group_of name function_details))
                names)
  end.

(** ** The [df] cell: the keyword and type strings *)

Definition date : Type := nat * nat * nat.

Inductive cell :=
  | Text (v : option string)
  | Day (v : date).

(** a data frame, row by row; a row lists its columns in order *)
Definition row : Type := list (string * cell).
Definition DataFrame : Type := list row.

(** [row[column]] *)
Fixpoint field (column : string) (r : row) : option cell :=
  match r with
  | [] => None
  | (name, v) :: r' => if String.eqb name column then Some v else field column r'
  end.

Definition columns (r : row) : list string := map fst r.

(** [stg_keywords]: (keyword_group, keyword) over the four views *)
Definition stg_keywords (c : catalog) : list (string * string) :=
  map (pair "duckdb_keywords") (duckdb_keywords c)
  ++ map (pair "duckdb_settings") (duckdb_settings c)
  ++ map (pair "duckdb_functions") (map function_name (duckdb_functions c))
  ++ map (pair "duckdb_types") (duckdb_types c).

(** the names [all_keywords] aggregates under the predicate of its WHERE *)
Definition all_keywords (keep : string -> bool) (c : catalog) : list string :=
  map snd (filter (fun kw => keep (snd kw)) (stg_keywords c)).

Definition builtin_keywords (c : catalog) : list string :=
  map snd
    (filter (fun kw => fst kw = "duckdb_keywords" \/ fst kw = "duckdb_settings")
            (stg_keywords c)).

(** the single row the statement returns once its WHERE is known *)
Definition df_row (keep : string -> bool) (c : catalog)
    (version : string) (today : date) : row :=
  [ ("duckdb_version", Text (Some version));
    ("last_updated", Day today);
    ("keywords", Text (Agg.string_agg (all_keywords keep c)));
    ("builtin", Text (Agg.string_agg (builtin_keywords c)));
    ("types", Text (Agg.string_agg (duckdb_types c))) ].

(** [version] and [today] are what the engine's [version()] and [today()]
    report during the run. *)
Definition df (c : catalog) (EXCLUDED_KEYWORDS : list string)
    (version : string) (today : date) : option DataFrame :=
  match Sql.where_ "keyword" (filter_keywords_query "keyword" EXCLUDED_KEYWORDS) with
  | None => None
  | Some keep => Some [df_row keep c version today]
  end.

(** [len(df[column][0].split(" "))], as the [num_keywords] and [num_types]
    cell computes it; [None] when the cell is missing or NULL *)
Definition tokens (column : string) (frame : DataFrame) : option (list string) :=
  match frame with
  | r :: _ =>
      match field column r with
      | Some (Text (Some s)) => Some (Str.split_on " " s)
      | _ => None
      end
  | [] => None
  end.

Definition num_keywords (frame : DataFrame) : option nat :=
  length <$> tokens "keywords" frame.

Definition num_types (frame : DataFrame) : option nat :=
  length <$> tokens "types" frame.

(** ** The function selector cell *)

Definition included_functions : list string :=
  [ "array"; "count"; "struct"; "concat"; "cast"; "combine"; "contains";
    "date"; "day"; "histogram"; "generate_series"; "json"; "string";
    "substring"; "to_"; "trim" ].

Record fn_entry := {
  entry_description : option string;
  entry_example : option string
}.

(** A Python dict keeps its keys in insertion order; assigning to a key that
    is present replaces the value where it stands. *)
Definition pydict (V : Type) : Type := list (string * V).

Fixpoint dict_get {V} (d : pydict V) (key : string) : option V :=
  match d with
  | [] => None
  | (k, v) :: d' => if String.eqb k key then Some v else dict_get d' key
  end.

Fixpoint dict_set {V} (d : pydict V) (key : string) (value : V) : pydict V :=
  match d with
  | [] => [(key, value)]
  | (k, v) :: d' =>
      if String.eqb k key then (k, value) :: d'
      else (k, v) :: dict_set d' key value
  end.

(** [any_horizontal(col.str.starts_with(prefix) for prefix in included)] *)
Definition prefix_filter (included : list string) (r : function_overloads) : bool :=
  existsb (fun prefix => Str.starts_with (fo_function_name r) prefix) included.

(** [pl.col("description") != ""]: a NULL description compares to NULL, and
    [filter] keeps only rows whose predicate is true *)
Definition description_filter (r : function_overloads) : bool :=
  match fo_description r with
  | Some d => negb (String.eqb d "")
  | None => false
  end.

Definition filtered_fn (included : list string)
    (functions : list function_overloads) : list function_overloads :=
  filter (fun r => prefix_filter included r && description_filter r) functions.

Definition fn_dict_of (included : list string)
    (functions : list function_overloads) : pydict fn_entry :=
  foldl (fun d r =>
           dict_set d (fo_function_name r)
             {| entry_description := fo_description r;
                entry_example := example r |})
        [] (filtered_fn included functions).

Definition fn_dict (functions : list function_overloads) : pydict fn_entry :=
  fn_dict_of included_functions functions.

(** ** Files and directories *)

Module Fs.

(** What a writer put in a file: the value it serialised, together with
    the serialiser.  The bytes on disk are a function of this value, so two
    files hold the same bytes when they hold the same document. *)
Inductive document :=
  | WriteJson (frame : DataFrame)
  | JsonDump (obj : pydict fn_entry) (indent : nat).

Inductive node :=
  | File (data : document)
  | Dir.

Abbreviation path := (list string).

(** The tree below the working directory, keyed by the names from it
    down; the working directory itself is a directory and has no entry.
    Names are taken as written: [..], links and a leading slash are not
    resolved, so a key is the operating system's path only for the strings
    [plain] accepts.  The file system is a POSIX one; permissions and
    quotas are not modelled. *)
Abbreviation state := (gmap path node).

Inductive error :=
  | SqlError
  | FileNotFoundError
  | NotADirectoryError
  | IsADirectoryError
  | FileExistsError
  | AttributeError.

Inductive outcome (A : Type) :=
  | Ok (a : A)
  | Raised (e : error).
Arguments Ok {A} a.
Arguments Raised {A} e.

(** a computation over the file system that may raise *)
Definition M (A : Type) : Type := state -> outcome A * state.

Definition ret {A} (a : A) : M A := fun fs => (Ok a, fs).
Definition raise {A} (e : error) : M A := fun fs => (Raised e, fs).
Definition bind {A B} (m : M A) (k : A -> M B) : M B :=
  fun fs =>
    match m fs with
    | (Ok a, fs') => k a fs'
    | (Raised e, fs') => (Raised e, fs')
    end.

(** the names of a path string: empty pieces and [.] carry no name *)
Definition components (p : string) : path :=
  filter (fun name => name <> "" /\ name <> ".") (Str.split_on "/" p).

(** The path strings whose names the operating system reads as
    [components] does: relative, no [..] among the pieces, no NUL
    character, and short enough for every name and for the path with a
    file name appended. *)
Definition plain (p : string) : bool :=
  negb (Str.starts_with p "/")
  && forallb (fun name => negb (String.eqb name "..")) (Str.split_on "/" p)
  && negb (Str.has_char "000" p)
  && (String.length p <=? 240).

Definition is_dir (fs : state) (q : path) : bool :=
  match q with
  | [] => true
  | _ => match fs !! q with Some Dir => true | _ => false end
  end.

Definition present (fs : state) (q : path) : bool :=
  match q with
  | [] => true
  | _ => match fs !! q with Some _ => true | None => false end
  end.

(** [os.path.exists(p)] *)
Definition exists_ (p : string) : M bool :=
  fun fs =>
    (Ok (if decide (p = "") then false else present fs (components p)), fs).

(** creates the directories [done ++ [n1]], [done ++ [n1; n2]], ... that
    are missing; the last one has to be new *)
Fixpoint makedirs_from (done todo : path) : M unit :=
  match todo with
  | [] => ret tt
  | name :: rest =>
      let q := done ++ [name] in
      fun fs =>
        match fs !! q, rest with
        | Some Dir, _ :: _ => makedirs_from q rest fs
        | Some (File _), _ :: _ => (Raised NotADirectoryError, fs)
        | Some _, [] => (Raised FileExistsError, fs)
        | None, _ => makedirs_from q rest (<[q := Dir]> fs)
        end
  end.

(** [os.makedirs(p)] *)
Definition makedirs (p : string) : M unit :=
  if decide (p = "") then raise FileNotFoundError
  else match components p with
       | [] => raise FileExistsError
       | q => makedirs_from [] q
       end.

(** opening [p] for writing and storing [data]: the file is created or
    truncated, its directory has to exist *)
Definition write (p : string) (data : document) : M unit :=
  fun fs =>
    let q := components p in
    if decide (p = "") then (Raised FileNotFoundError, fs)
    else if negb (is_dir fs (removelast q)) then
      (Raised (if present fs (removelast q) then NotADirectoryError
               else FileNotFoundError), fs)
    else if is_dir fs q then (Raised IsADirectoryError, fs)
    else (Ok tt, <[q := File data]> fs).

End Fs.

Notation "x <- m ;; k" := (Fs.bind m (fun x => k))
  (at level 100, m at next level, right associativity).
Notation "m ;;; k" := (Fs.bind m (fun _ => k))
  (at level 100, right associativity).

(** ** The writers *)

(** [df.select(pl.exclude(name))] *)
Definition select_exclude (name : string) (frame : DataFrame) : DataFrame :=
  map (filter (fun col : string * cell => fst col <> name)) frame.

Definition write_to_file (df : DataFrame) (filepath : string) : Fs.M unit :=
  Fs.write filepath (Fs.WriteJson (select_exclude "builtin" df)).

Definition save_to_json (obj : pydict fn_entry) (filepath : string) : Fs.M unit :=
  Fs.write filepath (Fs.JsonDump obj 4).

(** ** The export cell

    [mode] is [mo.app_meta().mode], [args_savepath] the parsed [--savepath]
    (default [temp.json]), [form_value] the value of the form: [None] until
    it is submitted. *)
Definition export_cell (mode args_savepath : string) (form_value : option string)
    (df : DataFrame) (fn_dict : pydict fn_entry) : Fs.M unit :=
  if String.eqb mode "script" then
    let savepath := args_savepath in
    write_to_file df savepath ;;;
    save_to_json fn_dict (savepath +:+ "/functions.json")
  else
    match form_value with
    | Some savepath =>
        if negb (String.eqb (Str.strip savepath) "") then
          (found <- Fs.exists_ savepath ;;
           if negb found then Fs.makedirs savepath else Fs.ret tt) ;;;
          write_to_file df (savepath +:+ "/keywords.json") ;;;
          save_to_json fn_dict (savepath +:+ "/functions.json")
        else Fs.ret tt
    | None => Fs.ret tt
    end.

(** One run of the notebook: the two queries, the counting cell, the
    selector, the export.  A cell whose input cell raised does not run: the
    export cell takes [form] from the counting cell, which splits the
    [keywords] and the [types] cell of the frame and raises on [None.split]
    when either is NULL. *)
Definition run (c : catalog) (version : string) (today : date)
    (EXCLUDED : list string) (mode args_savepath : string)
    (form_value : option string) : Fs.M unit :=
  match df c EXCLUDED version today, functions c EXCLUDED with
  | Some frame, Some fns =>
      match num_keywords frame, num_types frame with
      | Some _, Some _ =>
          export_cell mode args_savepath form_value frame (fn_dict fns)
      | _, _ => Fs.raise Fs.AttributeError
      end
  | _, _ => Fs.raise Fs.SqlError
  end.

(** ** The JSON values the writers serialise *)

#[warnings="-register-all"]
Inductive json :=
  | JNull
  | JString (s : string)
  | JDate (d : date)
  | JArray (items : list json)
  | JObject (fields : list (string * json)).

Definition json_of_text (v : option string) : json :=
  match v with
  | Some s => JString s
  | None => JNull
  end.

(** a date is written as its ISO text *)
Definition json_of_cell (x : cell) : json :=
  match x with
  | Text v => json_of_text v
  | Day d => JDate d
  end.

(** polars' [DataFrame.write_json]: a JSON array with one object per row,
    the columns as its fields in order *)
Definition write_json (frame : DataFrame) : json :=
  JArray
    (map (fun r : list (string * cell) =>
            JObject (map (fun col => (fst col, json_of_cell (snd col))) r))
         frame).

(** [json.dump(fn_dict)]: an object with one object per function name *)
Definition json_dump (obj : pydict fn_entry) : json :=
  JObject
    (map (fun kv : string * fn_entry =>
            (fst kv,
             JObject [ ("description", json_of_text (entry_description (snd kv)));
                       ("example", json_of_text (entry_example (snd kv))) ]))
         obj).

(** the JSON value of what a file holds *)
Definition json_of (data : Fs.document) : json :=
  match data with
  | Fs.WriteJson frame => write_json frame
  | Fs.JsonDump obj _ => json_dump obj
  end.


(** ** The example as the specification words it

    Follows the specification, not the source: the first example string of
    the first overload row of [name] that has one, NULL when none has.  It
    is compared with what the [functions] cell records. *)
Fixpoint spec_first_example (name : string) (rows : list function_row)
  : option string :=
  match rows with
  | [] => None
  | r :: rows' =>
      if decide (function_name r = name) then
        match Agg.first (examples r) with
        | Some e => Some e
        | None => spec_first_example name rows'
        end
      else spec_first_example name rows'
  end.

(** the names of the four views, as [stg_keywords] lists them *)
Definition catalog_names (c : catalog) : list string :=
  map snd (stg_keywords c).

(** ** Prefixes the generated text carries as they are *)

(** the prefix holds no quote, so its literal ends where the notebook
    closes it *)
Definition quote_free (kw : string) : bool := negb (Str.has_char "'" kw).

(** the prefix holds none of the characters LIKE reads as wildcards *)
Definition wildcard_free (kw : string) : bool :=
  negb (Str.has_char "%" kw) && negb (Str.has_char "_" kw).

(** the patterns of the generated conditions *)
Definition patterns_of (EXCLUDED : list string) : list string :=
  map (fun kw => kw +:+ "%") EXCLUDED.

(** no catalog name holds the separator of the keyword strings *)
Definition space_free (c : catalog) : Prop :=
  Forall (fun n => Str.has_char " " n = false) (catalog_names c).

(** ** A small catalog to run the cells on *)

Definition overload_row (name : string) (descr : option string)
    (ex : option (list string)) : function_row :=
  {| function_name := name; parameters := []; return_type := Some "VARCHAR";
     parameter_types := []; description := descr; alias_of := None;
     examples := ex |}.

Definition sample_catalog : catalog :=
  {| duckdb_keywords := ["select"; "group"; "select"];
     duckdb_settings := ["threads"; "pg_catalog"];
     duckdb_functions :=
       [ overload_row "json_extract" (Some "Extracts")
           (Some ["json_extract(x,'$.a')"]);
         overload_row "json_extract" (Some "Extracts")
           (Some ["json_extract(y,'$.b')"]);
         overload_row "count" (Some "") None;
         overload_row "hash" (Some "Hash value") (Some ["hash('x')"]);
         overload_row "icu_sort_key" (Some "Sort key") None;
         overload_row "abs" (Some "Absolute value") (Some ["abs(-1)"]) ];
     duckdb_types := ["varchar"; "pg_node_tree"; "integer"] |}.

Definition sample_date : date := (2025, 8, 1).

(** a catalog with a type name that holds a space *)
Definition spaced_catalog : catalog :=
  {| duckdb_keywords := ["select"];
     duckdb_settings := [];
     duckdb_functions := [];
     duckdb_types := ["a b"; "b"] |}.

(** a catalog whose three overloads of [trim] agree on their first example
    where they have one *)
Definition agreeing_catalog : catalog :=
  {| duckdb_keywords := ["select"];
     duckdb_settings := [];
     duckdb_functions :=
       [ overload_row "trim" (Some "Removes spaces") (Some ["trim(' a ')"]);
         overload_row "trim" (Some "Removes spaces") None;
         overload_row "trim" (Some "Removes spaces")
           (Some ["trim(' a ')"; "trim(x, 'y')"]) ];
     duckdb_types := ["varchar"] |}.

(** * Properties *)

(** ** Strings *)

Section StrFacts.

Lemma app_nil_l_s (b : string) : "" +:+ b = b.
Proof. reflexivity. Qed.

Lemma app_cons_s (x : ascii) (a b : string) :
  String x a +:+ b = String x (a +:+ b).
Proof. reflexivity. Qed.

Lemma app_assoc_s (a b c : string) : (a +:+ b) +:+ c = a +:+ (b +:+ c).
Proof.
  induction a as [|x a IH]; [reflexivity|].
  by rewrite !app_cons_s, IH.
Qed.

Lemma app_nil_r_s (a : string) : a +:+ "" = a.
Proof.
  induction a as [|x a IH]; [reflexivity|]. by rewrite app_cons_s, IH.
Qed.

Lemma length_app_s (a b : string) :
  String.length (a +:+ b) = String.length a + String.length b.
Proof.
  induction a as [|x a IH]; [reflexivity|].
  rewrite app_cons_s. simpl. by rewrite IH.
Qed.

Lemma starts_with_app (p r : string) : Str.starts_with (p +:+ r) p = true.
Proof.
  induction p as [|x p IH]; [reflexivity|].
  rewrite app_cons_s. simpl. by rewrite Ascii.eqb_refl, IH.
Qed.

Lemma starts_with_inv (s p : string) :
  Str.starts_with s p = true -> exists r, s = p +:+ r.
Proof.
  revert s. induction p as [|x p IH]; intros s H.
  - by exists s.
  - destruct s as [|c s]; simpl in H; [discriminate|].
    apply andb_prop in H as [Hc Hs].
    apply Ascii.eqb_eq in Hc as ->.
    destruct (IH _ Hs) as [r ->]. by exists r.
Qed.

Lemma split_on_not_nil (sep : ascii) (s : string) : Str.split_on sep s <> [].
Proof.
  induction s as [|c s IH]; simpl; [done|].
  destruct (Ascii.eqb c sep); [done|].
  by destruct (Str.split_on sep s).
Qed.

(** a separator between two texts separates their pieces *)
Lemma split_on_app (sep : ascii) (a b : string) :
  Str.split_on sep (a +:+ String sep b)
  = Str.split_on sep a ++ Str.split_on sep b.
Proof.
  induction a as [|c a IH].
  - rewrite app_nil_l_s. simpl. by rewrite Ascii.eqb_refl.
  - rewrite app_cons_s. simpl.
    destruct (Ascii.eqb c sep) eqn:E; rewrite IH; [done|].
    pose proof (split_on_not_nil sep a) as Hne.
    by destruct (Str.split_on sep a).
Qed.

(** a text without the separator is one piece *)
Lemma split_on_free (sep : ascii) (s : string) :
  Str.has_char sep s = false -> Str.split_on sep s = [s].
Proof.
  unfold Str.has_char. intros H. apply negb_false_iff in H.
  induction s as [|c s IH]; simpl in *; [done|].
  apply andb_prop in H as [Hc Hs]. apply negb_true_iff in Hc.
  rewrite Hc, (IH Hs). done.
Qed.

(** splitting undoes joining when no name holds the separator *)
Lemma split_on_join (names : list string) :
  names <> [] ->
  Forall (fun n => Str.has_char " " n = false) names ->
  Str.split_on " " (Str.join " " names) = names.
Proof.
  intros Hne Hfree. induction Hfree as [|n names Hn Hfree IH]; [done|].
  destruct names as [|m names].
  - simpl. by apply split_on_free.
  - change (Str.join " " (n :: m :: names))
      with (n +:+ String " " (Str.join " " (m :: names))).
    rewrite split_on_app, (split_on_free _ _ Hn), IH; done.
Qed.

Lemma lstrip_whitespace (s : string) :
  Str.all_chars Str.isspace s = true -> Str.lstrip s = "".
Proof.
  induction s as [|c s IH]; simpl; [done|].
  intros [Hc Hs]%andb_prop. rewrite Hc. auto.
Qed.

(** a text of whitespace alone strips to nothing, and only such a text does *)
Lemma strip_whitespace (s : string) :
  Str.strip s = "" <-> Str.all_chars Str.isspace s = true.
Proof.
  unfold Str.strip. split.
  - induction s as [|c s IH]; simpl; [done|].
    destruct (Str.isspace c) eqn:Hc; simpl; [done|].
    rewrite Hc. destruct (Str.rstrip s); done.
  - intros H. by rewrite lstrip_whitespace.
Qed.

End StrFacts.

(** ** The generated WHERE text and the engine's reading of it *)

Section SqlFacts.

Lemma like_percent (p v : string) :
  Sql.like (String "%" p) v
  = Sql.like p v
    || match v with
       | EmptyString => false
       | String _ v' => Sql.like (String "%" p) v'
       end.
Proof. destruct v; reflexivity. Qed.

Lemma like_underscore (p v : string) :
  Sql.like (String "_" p) v
  = match v with EmptyString => false | String _ v' => Sql.like p v' end.
Proof. reflexivity. Qed.

Lemma like_char (a : ascii) (p v : string) :
  a <> "%"%char -> a <> "_"%char ->
  Sql.like (String a p) v
  = match v with
    | EmptyString => false
    | String c v' => Ascii.eqb c a && Sql.like p v'
    end.
Proof.
  intros H1%Ascii.eqb_neq H2%Ascii.eqb_neq. simpl. by rewrite H1, H2.
Qed.

Lemma like_any (v : string) : Sql.like "%" v = true.
Proof.
  induction v as [|c v IH]; rewrite like_percent; [done|].
  rewrite IH. apply orb_true_r.
Qed.

(** whatever the prefix holds, its pattern matches every value starting with it *)
Lemma like_prefix_complete (p s : string) :
  Str.starts_with s p = true -> Sql.like (p +:+ "%") s = true.
Proof.
  revert s. induction p as [|a p IH]; intros s H.
  - apply like_any.
  - destruct s as [|c s]; simpl in H; [discriminate|].
    apply andb_prop in H as [Hc Hs]. apply Ascii.eqb_eq in Hc as ->.
    rewrite app_cons_s.
    destruct (Ascii.eqb_spec a "%") as [->|Hp].
    { rewrite like_percent, like_percent, (IH _ Hs).
      by rewrite orb_true_r. }
    destruct (Ascii.eqb_spec a "_") as [->|Hu].
    { rewrite like_underscore. auto. }
    rewrite like_char by done. by rewrite Ascii.eqb_refl, IH.
Qed.

(** without wildcards in the prefix, its pattern matches exactly those values *)
Lemma like_prefix_literal (p s : string) :
  wildcard_free p = true -> Sql.like (p +:+ "%") s = Str.starts_with s p.
Proof.
  unfold wildcard_free, Str.has_char. rewrite !negb_involutive.
  revert s. induction p as [|a p IH]; intros s H.
  - apply like_any.
  - simpl in H. apply andb_prop in H as [[H1 H2]%andb_prop [H3 H4]%andb_prop].
    apply negb_true_iff, Ascii.eqb_neq in H1, H3.
    rewrite app_cons_s, like_char by done.
    destruct s as [|c s]; simpl; [done|].
    rewrite IH; [done|]. by rewrite H2, H4.
Qed.

Lemma strip_lead_app (l s : string) : Sql.strip_lead l (l +:+ s) = Some s.
Proof.
  induction l as [|x l IH]; [reflexivity|].
  rewrite app_cons_s. simpl. by rewrite Ascii.eqb_refl.
Qed.

Lemma read_literal_app (body rest : string) :
  Str.has_char "'" body = false ->
  Sql.read_literal (body +:+ String "'" rest) = Some (body, rest).
Proof.
  unfold Str.has_char. intros H%negb_false_iff.
  induction body as [|c body IH]; [reflexivity|].
  simpl in H. apply andb_prop in H as [Hc Hb]. apply negb_true_iff in Hc.
  rewrite app_cons_s. simpl. by rewrite Hc, (IH Hb).
Qed.

Lemma has_char_app (c : ascii) (a b : string) :
  Str.has_char c (a +:+ b) = Str.has_char c a || Str.has_char c b.
Proof.
  unfold Str.has_char. induction a as [|x a IH]; [reflexivity|].
  rewrite app_cons_s. simpl.
  destruct (Ascii.eqb x c); simpl; [done|]. exact IH.
Qed.

Lemma condition_shape (column kw rest : string) :
  (column +:+ " NOT LIKE '" +:+ kw +:+ "%'") +:+ rest
  = (column +:+ " NOT LIKE '") +:+ ((kw +:+ "%") +:+ String "'" rest).
Proof. rewrite !app_assoc_s. reflexivity. Qed.

Lemma filter_keywords_query_cons (column kw kw' : string) (P : list string) :
  filter_keywords_query column (kw :: kw' :: P)
  = (column +:+ " NOT LIKE '" +:+ kw +:+ "%'")
    +:+ (" AND " +:+ filter_keywords_query column (kw' :: P)).
Proof. reflexivity. Qed.

Lemma parse_where_S (fuel : nat) (column clause : string) :
  Sql.parse_where (S fuel) column clause
  = match Sql.strip_lead (column +:+ " NOT LIKE '") clause with
    | None => None
    | Some after_quote =>
        match Sql.read_literal after_quote with
        | None => None
        | Some (pattern, EmptyString) => Some [pattern]
        | Some (pattern, rest) =>
            match Sql.strip_lead " AND " rest with
            | None => None
            | Some clause' =>
                match Sql.parse_where fuel column clause' with
                | None => None
                | Some patterns => Some (pattern :: patterns)
                end
            end
        end
    end.
Proof. reflexivity. Qed.

(** the engine reads back, from the text generated for a non-empty list of
    quote-free prefixes, one pattern per prefix *)
Lemma parse_generated (column : string) (P : list string) (fuel : nat) :
  P <> [] -> Forall (fun kw => quote_free kw = true) P -> length P <= fuel ->
  Sql.parse_where fuel column (filter_keywords_query column P)
  = Some (patterns_of P).
Proof.
  intros Hne Hq. revert fuel Hne.
  induction Hq as [|kw P Hkw Hq IH]; intros fuel Hne Hfuel; [done|].
  destruct fuel as [|fuel]; [simpl in Hfuel; lia|].
  assert (Hpat : Str.has_char "'" (kw +:+ "%") = false).
  { rewrite has_char_app. unfold quote_free in Hkw.
    apply negb_true_iff in Hkw. by rewrite Hkw. }
  destruct P as [|kw' P].
  - change (filter_keywords_query column [kw])
      with (column +:+ " NOT LIKE '" +:+ kw +:+ "%'").
    rewrite <- (app_nil_r_s (column +:+ _)), condition_shape.
    by rewrite parse_where_S, strip_lead_app, read_literal_app.
  - rewrite filter_keywords_query_cons, condition_shape.
    rewrite parse_where_S, strip_lead_app, read_literal_app by done.
    destruct (" AND " +:+ filter_keywords_query column (kw' :: P))
      as [|x tail] eqn:E; [discriminate E|].
    rewrite <- E, strip_lead_app.
    rewrite IH; [done | done | simpl in *; lia].
Qed.

Lemma filter_keywords_query_length (column : string) (P : list string) :
  length P <= String.length (filter_keywords_query column P).
Proof.
  induction P as [|kw P IH]; [simpl; lia|].
  destruct P as [|kw' P].
  - change (filter_keywords_query column [kw])
      with (column +:+ " NOT LIKE '" +:+ kw +:+ "%'").
    rewrite !length_app_s. simpl. lia.
  - rewrite filter_keywords_query_cons, !length_app_s. simpl in *. lia.
Qed.

(** the WHERE of the generated text keeps a name when it matches none of
    the patterns [prefix%] *)
Lemma where_generated (column : string) (P : list string) :
  P <> [] -> Forall (fun kw => quote_free kw = true) P ->
  Sql.where_ column (filter_keywords_query column P)
  = Some (Sql.passes (patterns_of P)).
Proof.
  intros Hne Hq. unfold Sql.where_.
  rewrite parse_generated; [done | done | done |].
  pose proof (filter_keywords_query_length column P). lia.
Qed.

(** an empty exclusion list generates the empty text, which is no condition *)
Lemma where_empty (column : string) :
  Sql.where_ column (filter_keywords_query column []) = None.
Proof.
  unfold Sql.where_. simpl.
  destruct column; reflexivity.
Qed.

(** a kept name starts with none of the prefixes *)
Lemma passes_no_prefix (P : list string) (name p : string) :
  Sql.passes (patterns_of P) name = true -> p ∈ P ->
  Str.starts_with name p = false.
Proof.
  unfold Sql.passes, patterns_of. intros H Hp.
  rewrite forallb_forall in H.
  specialize (H (p +:+ "%")).
  destruct (Str.starts_with name p) eqn:E; [|done].
  rewrite (like_prefix_complete _ _ E) in H.
  exfalso. apply diff_false_true. apply H.
  apply in_map_iff. exists p. split; [done|]. by apply list_elem_of_In.
Qed.

End SqlFacts.

(** ** Aggregates *)

Section AggFacts.

Lemma distinct_ordered_sorted (values : list string) :
  Sorted String.le (Agg.distinct_ordered values).
Proof. apply (Sorted_merge_sort String.le). Qed.

Lemma distinct_ordered_nodup (values : list string) :
  NoDup (Agg.distinct_ordered values).
Proof.
  unfold Agg.distinct_ordered.
  rewrite (merge_sort_Permutation String.le). apply NoDup_remove_dups.
Qed.

Lemma distinct_ordered_elem (values : list string) (n : string) :
  n ∈ Agg.distinct_ordered values <-> n ∈ values.
Proof.
  unfold Agg.distinct_ordered.
  rewrite (merge_sort_Permutation String.le). apply elem_of_remove_dups.
Qed.

Lemma compare_refl (x : string) : String.compare x x = Eq.
Proof.
  pose proof (String.compare_antisym x x) as H.
  destruct (String.compare x x); simpl in H; congruence.
Qed.

Lemma compare_lt_le (x y : string) :
  String.compare x y = Lt -> String.le x y /\ x <> y.
Proof.
  intros H. split.
  - unfold String.le, String.leb. by rewrite H.
  - intros ->. rewrite compare_refl in H. discriminate.
Qed.

Lemma le_ne_compare_lt (x y : string) :
  String.le x y -> x <> y -> String.compare x y = Lt.
Proof.
  unfold String.le, String.leb. intros Hle Hne.
  destruct (String.compare x y) eqn:E; [|done|done].
  by apply String.compare_eq_iff in E.
Qed.

Lemma compare_lt_trans (x y z : string) :
  String.compare x y = Lt -> String.compare y z = Lt ->
  String.compare x z = Lt.
Proof.
  intros [Hxy Hne1]%compare_lt_le [Hyz Hne2]%compare_lt_le.
  apply le_ne_compare_lt; [by etrans|].
  intros ->. apply Hne1. by apply (anti_symm String.le).
Qed.

Lemma compare_gt_lt (x y : string) :
  String.compare x y = Gt <-> String.compare y x = Lt.
Proof.
  rewrite (String.compare_antisym y x).
  destruct (String.compare x y); simpl; split; congruence.
Qed.

Lemma list_leb_refl (l : list string) : Agg.list_leb l l = true.
Proof. induction l as [|x l IH]; simpl; [done|]. by rewrite compare_refl. Qed.

Lemma list_leb_total (l1 l2 : list string) :
  Agg.list_leb l1 l2 = true \/ Agg.list_leb l2 l1 = true.
Proof.
  revert l2. induction l1 as [|x l1 IH]; intros [|y l2]; simpl; auto.
  destruct (String.compare x y) eqn:E; auto.
  - apply String.compare_eq_iff in E as ->. rewrite compare_refl. apply IH.
  - apply compare_gt_lt in E. rewrite E. auto.
Qed.

Lemma list_leb_trans (l1 l2 l3 : list string) :
  Agg.list_leb l1 l2 = true -> Agg.list_leb l2 l3 = true ->
  Agg.list_leb l1 l3 = true.
Proof.
  revert l2 l3. induction l1 as [|x l1 IH]; intros [|y l2] [|z l3];
    simpl; try done.
  destruct (String.compare x y) eqn:Exy; [| |done].
  - apply String.compare_eq_iff in Exy as ->.
    destruct (String.compare y z); [|done|done]. apply IH.
  - destruct (String.compare y z) eqn:Eyz; [| |done].
    + apply String.compare_eq_iff in Eyz as <-. by rewrite Exy.
    + by rewrite (compare_lt_trans _ _ _ Exy Eyz).
Qed.

(** only the empty list lies below the empty list *)
Lemma list_leb_nil_r (l : list string) : Agg.list_leb l [] = true -> l = [].
Proof. by destruct l. Qed.

(** [MAX] in terms of its order: what one left fold returns *)
Lemma max_fold {A} (leb : A -> A -> bool) (acc : option A)
    (values : list (option A)) :
  (forall x, leb x x = true) ->
  (forall x y, leb x y = true \/ leb y x = true) ->
  (forall x y z, leb x y = true -> leb y z = true -> leb x z = true) ->
  let step := fun (acc v : option A) =>
    match acc, v with
    | None, _ => v
    | Some _, None => acc
    | Some a, Some b => if leb a b then Some b else Some a
    end in
  match foldl step acc values with
  | None => acc = None /\ forall v, v ∈ values -> v = None
  | Some m =>
      (acc = Some m \/ Some m ∈ values)
      /\ (forall a, acc = Some a -> leb a m = true)
      /\ (forall x, Some x ∈ values -> leb x m = true)
  end.
Proof.
  intros Hrefl Htotal Htrans step. revert acc.
  induction values as [|v values IH]; intros acc; simpl.
  - destruct acc as [a|].
    + split; [by left|]. split; [by intros ? [= ->]|].
      intros x Hx. by apply elem_of_nil in Hx.
    + split; [done|]. intros v Hv. by apply elem_of_nil in Hv.
  - specialize (IH (step acc v)).
    destruct (foldl step (step acc v) values) as [m|].
    + destruct IH as (Hin & Hacc & Hall). split; [|split].
      * destruct Hin as [Hin|Hin]; [|right; by apply elem_of_cons; right].
        destruct acc as [a|], v as [b|]; simpl in Hin.
        -- destruct (leb a b); [right; rewrite Hin; apply elem_of_cons; by left
                                |by left].
        -- by left.
        -- right. rewrite Hin. apply elem_of_cons. by left.
        -- discriminate.
      * intros a ->. destruct v as [b|]; simpl in Hacc; [|by apply Hacc].
        destruct (leb a b) eqn:E; [|by apply Hacc].
        apply (Htrans _ b); [done|by apply Hacc].
      * intros x [Hx|Hx]%elem_of_cons; [|by apply Hall]. subst v.
        destruct acc as [a|]; simpl in Hacc; [|by apply Hacc].
        destruct (leb a x) eqn:E; [by apply Hacc|].
        apply (Htrans _ a); [|by apply Hacc].
        destruct (Htotal a x); congruence.
    + destruct IH as (Hstep & Hall).
      destruct acc as [a|], v as [b|]; simpl in Hstep; try discriminate.
      * destruct (leb a b); discriminate.
      * split; [done|]. intros v [->|Hv]%elem_of_cons; [done|by apply Hall].
Qed.

(** [MAX] is NULL over NULLs alone; otherwise it is one of the values and
    every value lies below it *)
Lemma max_spec {A} (leb : A -> A -> bool) (values : list (option A)) :
  (forall x, leb x x = true) ->
  (forall x y, leb x y = true \/ leb y x = true) ->
  (forall x y z, leb x y = true -> leb y z = true -> leb x z = true) ->
  match Agg.max leb values with
  | None => forall v, v ∈ values -> v = None
  | Some m => Some m ∈ values /\ forall x, Some x ∈ values -> leb x m = true
  end.
Proof.
  intros Hrefl Htotal Htrans.
  pose proof (max_fold leb None values Hrefl Htotal Htrans) as H.
  unfold Agg.max. simpl in H.
  destruct (foldl _ None values) as [m|].
  - destruct H as ([?|?] & _ & ?); [discriminate|done].
  - by destruct H.
Qed.

End AggFacts.

(** ** The function dictionary *)

Section DictFacts.

Context {V : Type}.
Implicit Types (d : pydict V) (k : string) (v : V).

Lemma dict_get_set d k v k' :
  dict_get (dict_set d k v) k'
  = if String.eqb k k' then Some v else dict_get d k'.
Proof.
  induction d as [|[k0 v0] d IH]; simpl.
  - reflexivity.
  - destruct (String.eqb_spec k0 k) as [->|Hne]; simpl.
    + by destruct (String.eqb k k').
    + rewrite IH. destruct (String.eqb_spec k0 k') as [->|Hne'].
      * apply String.eqb_neq in Hne. rewrite String.eqb_sym in Hne.
        by rewrite Hne.
      * reflexivity.
Qed.

Lemma dict_get_set_eq d k v : dict_get (dict_set d k v) k = Some v.
Proof. by rewrite dict_get_set, String.eqb_refl. Qed.

Lemma dict_get_set_ne d k v k' :
  k <> k' -> dict_get (dict_set d k v) k' = dict_get d k'.
Proof. intros H%String.eqb_neq. by rewrite dict_get_set, H. Qed.

End DictFacts.

Section SelectorFacts.

Variable included : list string.

Let entry_of (r : function_overloads) : fn_entry :=
  {| entry_description := fo_description r; entry_example := example r |}.

Let keeps (r : function_overloads) : bool :=
  prefix_filter included r && description_filter r.

Let fill (d : pydict fn_entry) (rows : list function_overloads) :=
  foldl (fun d r => dict_set d (fo_function_name r) (entry_of r)) d rows.

Lemma fill_other d rows k :
  k ∉ map fo_function_name rows -> dict_get (fill d rows) k = dict_get d k.
Proof.
  revert d. induction rows as [|r rows IH]; intros d Hk; simpl; [done|].
  simpl in Hk. apply not_elem_of_cons in Hk as [Hne Hk].
  unfold fill in IH. rewrite IH by done. by apply dict_get_set_ne.
Qed.

(** under unique names, a record's name maps to its entry when the record
    passes both filters, and to what was there before otherwise *)
Lemma fill_filter_lookup d functions r :
  NoDup (map fo_function_name functions) -> r ∈ functions ->
  dict_get (fill d (filter (fun r => keeps r) functions)) (fo_function_name r)
  = if keeps r then Some (entry_of r) else dict_get d (fo_function_name r).
Proof.
  revert d. induction functions as [|r0 functions IH]; intros d Hnd Hr.
  - by apply elem_of_nil in Hr.
  - simpl in Hnd. apply NoDup_cons in Hnd as [Hfresh Hnd].
    assert (Hsub : forall k, k ∉ map fo_function_name functions ->
                     k ∉ map fo_function_name (filter (fun r => keeps r) functions)).
    { intros k Hk Hin. apply Hk.
      apply list_elem_of_fmap in Hin as (x & -> & Hx).
      apply list_elem_of_filter in Hx as [_ Hx].
      by apply list_elem_of_fmap_2. }
    apply elem_of_cons in Hr as [->|Hr].
    + rewrite filter_cons. destruct (decide (keeps r0)) as [Hk|Hk].
      * simpl. rewrite fill_other by auto.
        rewrite dict_get_set_eq. by apply Is_true_true in Hk as ->.
      * rewrite fill_other by auto.
        by apply Is_true_false in Hk as ->.
    + assert (fo_function_name r0 <> fo_function_name r) as Hne.
      { intros Heq. apply Hfresh. rewrite Heq. by apply list_elem_of_fmap_2. }
      rewrite filter_cons. destruct (decide (keeps r0)) as [Hk|Hk].
      * simpl. unfold fill in IH. rewrite IH by done.
        destruct (keeps r); [done|]. by apply dict_get_set_ne.
      * by apply IH.
Qed.

(** every key of the dictionary is the name of a record that passed *)
Lemma fill_keys d rows k :
  is_Some (dict_get (fill d rows) k) ->
  is_Some (dict_get d k) \/ k ∈ map fo_function_name rows.
Proof.
  revert d. induction rows as [|r rows IH]; intros d H; simpl in *; [by left|].
  unfold fill in IH. apply IH in H as [H|H].
  - rewrite dict_get_set in H.
    destruct (String.eqb_spec (fo_function_name r) k) as [<-|Hne].
    + right. apply elem_of_cons. by left.
    + by left.
  - right. apply elem_of_cons. by right.
Qed.

Lemma fn_dict_of_lookup functions r :
  NoDup (map fo_function_name functions) -> r ∈ functions ->
  dict_get (fn_dict_of included functions) (fo_function_name r)
  = if prefix_filter included r && description_filter r
    then Some {| entry_description := fo_description r;
                 entry_example := example r |}
    else None.
Proof.
  intros Hnd Hr. unfold fn_dict_of, filtered_fn.
  exact (fill_filter_lookup [] functions r Hnd Hr).
Qed.

Lemma fn_dict_of_keys functions k :
  is_Some (dict_get (fn_dict_of included functions) k) ->
  exists r, r ∈ functions /\ fo_function_name r = k
            /\ prefix_filter included r = true
            /\ description_filter r = true.
Proof.
  intros H. apply (fill_keys [] (filtered_fn included functions) k) in H.
  destruct H as [[? H]|H]; [discriminate|].
  apply list_elem_of_fmap in H as (r & -> & Hr).
  apply list_elem_of_filter in Hr as [Hk Hr].
  apply Is_true_true, andb_prop in Hk as [? ?]. by exists r.
Qed.

End SelectorFacts.

Lemma prefix_filter_spec (included : list string) (r : function_overloads) :
  prefix_filter included r = true
  <-> exists prefix, prefix ∈ included
                     /\ Str.starts_with (fo_function_name r) prefix = true.
Proof.
  unfold prefix_filter. rewrite existsb_exists.
  split; intros (p & Hp & H); exists p; split; try done;
    by apply list_elem_of_In.
Qed.

Lemma description_filter_spec (r : function_overloads) :
  description_filter r = true
  <-> exists d, fo_description r = Some d /\ d <> "".
Proof.
  unfold description_filter. destruct (fo_description r) as [d|].
  - rewrite negb_true_iff, String.eqb_neq. split.
    + intros H. by exists d.
    + by intros (? & [= <-] & H).
  - split; [done|]. by intros (? & ? & _).
Qed.

(** ** The [functions] cell *)

Lemma functions_inv (c : catalog) (P : list string) (fns : list function_overloads) :
  functions c P = Some fns ->
  exists keep,
    Sql.where_ "function_name" (filter_keywords_query "function_name" P)
      = Some keep
    /\ let function_details :=
         filter (fun r => keep (function_name r)) (duckdb_functions c) in
       fns = map (fun name => aggregate_group name (group_of name function_details))
                 (Agg.distinct_ordered (map function_name function_details)).
Proof.
  unfold functions. destruct (Sql.where_ _ _) as [keep|]; [|done].
  intros [= <-]. by exists keep.
Qed.

(** grouping leaves one record per name *)
Lemma functions_names_nodup (c : catalog) (P : list string)
    (fns : list function_overloads) :
  functions c P = Some fns -> NoDup (map fo_function_name fns).
Proof.
  intros (keep & _ & ->)%functions_inv. simpl.
  rewrite map_map. simpl. rewrite map_id. apply distinct_ordered_nodup.
Qed.

(** C3. A record of the [functions] cell is in the exported dictionary
    exactly when its name starts with a prefix of the allow-list and its
    description is present and not empty; the entry under its name is then
    its description and its example, nothing else. *)
Theorem fn_dict_selects (c : catalog) (P : list string)
    (fns : list function_overloads) (r : function_overloads) :
  functions c P = Some fns -> r ∈ fns ->
  (is_Some (dict_get (fn_dict fns) (fo_function_name r))
   <-> (exists prefix, prefix ∈ included_functions
                       /\ Str.starts_with (fo_function_name r) prefix = true)
       /\ (exists d, fo_description r = Some d /\ d <> ""))
  /\ (forall e, dict_get (fn_dict fns) (fo_function_name r) = Some e ->
                e = {| entry_description := fo_description r;
                       entry_example := example r |}).
Proof.
  intros Hfns Hr. unfold fn_dict.
  rewrite (fn_dict_of_lookup included_functions fns r
             (functions_names_nodup _ _ _ Hfns) Hr).
  rewrite <- prefix_filter_spec, <- description_filter_spec.
  destruct (prefix_filter included_functions r), (description_filter r);
    simpl; (split; [split|]); try (intros [? ?]); try done;
    try (by intros [? ?]); try congruence.
Qed.

Lemma fn_dict_selects_witness :
  let r := {| fo_function_name := "json_extract";
              parameter_overloads := [[]; []];
              return_type_overloads := [Some "VARCHAR"; Some "VARCHAR"];
              parameter_types_overloads := [[]; []];
              fo_description := Some "Extracts";
              fo_alias_of := None;
              example := Some "json_extract(y,'$.b')" |} in
  exists fns,
    functions sample_catalog EXCLUDED_KEYWORDS = Some fns /\ r ∈ fns
    /\ dict_get (fn_dict fns) "json_extract"
       = Some {| entry_description := Some "Extracts";
                 entry_example := Some "json_extract(y,'$.b')" |}.
Proof.
  intros r.
  destruct (functions sample_catalog EXCLUDED_KEYWORDS) as [fns|] eqn:E;
    [|vm_compute in E; discriminate E].
  assert (Hr : r ∈ fns).
  { vm_compute in E. injection E as <-. subst r. set_solver. }
  exists fns. split; [done|]. split; [done|].
  destruct (fn_dict_selects sample_catalog EXCLUDED_KEYWORDS fns r E Hr)
    as [[_ Hin] Hentry].
  destruct Hin as [e He].
  - split; [exists "json"; split; [set_solver|reflexivity]|].
    exists "Extracts". split; [reflexivity|discriminate].
  - change (fo_function_name r) with "json_extract" in He.
    rewrite He. f_equal. apply Hentry. exact He.
Defined.

(** the rows grouped under a kept name are all the catalog rows of that name *)
Lemma group_of_kept (keep : string -> bool) (name : string)
    (rows : list function_row) :
  keep name = true ->
  group_of name (filter (fun r => keep (function_name r)) rows)
  = group_of name rows.
Proof.
  intros Hk. unfold group_of. rewrite list_filter_filter.
  apply list_filter_iff. intros x. split; [by intros [? _]|].
  intros Hx. split; [done|]. rewrite Hx, Hk. done.
Qed.

Lemma functions_elem (c : catalog) (P : list string)
    (fns : list function_overloads) (r : function_overloads) :
  functions c P = Some fns -> r ∈ fns ->
  let group := group_of (fo_function_name r) (duckdb_functions c) in
  group <> [] /\ r = aggregate_group (fo_function_name r) group.
Proof.
  intros (keep & _ & ->)%functions_inv Hr. simpl in Hr.
  apply list_elem_of_fmap in Hr as (name & -> & Hname).
  apply distinct_ordered_elem, list_elem_of_fmap in Hname
    as (row & -> & Hrow).
  apply list_elem_of_filter in Hrow as [Hkeep Hrow].
  apply Is_true_true in Hkeep. simpl.
  rewrite (group_of_kept keep _ _ Hkeep). split; [|done].
  intros Hnil.
  assert (row ∈ group_of (function_name row) (duckdb_functions c)) as Hin.
  { apply list_elem_of_filter. done. }
  rewrite Hnil in Hin. by apply elem_of_nil in Hin.
Qed.

(** C7, as the code has it. The example recorded for a name is the first
    string of the greatest examples list among the overload rows of that
    name, under the engine's order on lists; it is NULL exactly when no
    overload row has an example. *)
Theorem example_is_first_of_max (c : catalog) (P : list string)
    (fns : list function_overloads) (r : function_overloads) :
  functions c P = Some fns -> r ∈ fns ->
  let group := group_of (fo_function_name r) (duckdb_functions c) in
  group <> []
  /\ (example r = None
      <-> forall row, row ∈ group -> Agg.first (examples row) = None)
  /\ (forall e, example r = Some e ->
        exists row rest,
          row ∈ group /\ examples row = Some (e :: rest)
          /\ forall row' l', row' ∈ group -> examples row' = Some l' ->
                             Agg.list_leb l' (e :: rest) = true).
Proof.
  intros Hfns Hr.
  destruct (functions_elem c P fns r Hfns Hr) as [Hne Heq].
  set (group := group_of (fo_function_name r) (duckdb_functions c)) in *.
  simpl. split; [done|].
  assert (Hex : example r
                = Agg.first (Agg.max Agg.list_leb (map examples group))).
  { rewrite Heq at 1. reflexivity. }
  rewrite Hex. clear Hex Heq.
  pose proof (max_spec Agg.list_leb (map examples group)
                list_leb_refl list_leb_total list_leb_trans) as Hmax.
  destruct (Agg.max Agg.list_leb (map examples group)) as [[|e0 rest]|].
  - destruct Hmax as [_ Hall]. split; [|done].
    split; [|done]. intros _ row Hrow.
    destruct (examples row) as [l|] eqn:El; [|done].
    assert (Agg.list_leb l [] = true) as ->%list_leb_nil_r; [|done].
    apply Hall. rewrite <- El. by apply list_elem_of_fmap_2.
  - destruct Hmax as [Hin Hall].
    apply list_elem_of_fmap in Hin as (row & Hrow & Hin).
    split.
    + split; [done|]. intros H. specialize (H row Hin).
      rewrite <- Hrow in H. discriminate.
    + intros e [= <-]. exists row, rest. split; [done|]. split; [done|].
      intros row' l' Hrow' El'. apply Hall.
      rewrite <- El'. by apply list_elem_of_fmap_2.
  - split; [|done]. split; [|done]. intros _ row Hrow.
    rewrite (Hmax (examples row)); [done|]. by apply list_elem_of_fmap_2.
Qed.

Lemma example_is_first_of_max_witness :
  exists fns r,
    functions sample_catalog EXCLUDED_KEYWORDS = Some fns /\ r ∈ fns
    /\ fo_function_name r = "json_extract"
    /\ exists row rest,
         row ∈ group_of "json_extract" (duckdb_functions sample_catalog)
         /\ example r = Some "json_extract(y,'$.b')"
         /\ examples row = Some ("json_extract(y,'$.b')" :: rest).
Proof.
  destruct (functions sample_catalog EXCLUDED_KEYWORDS) as [fns|] eqn:E;
    [|vm_compute in E; discriminate E].
  pose (r := aggregate_group "json_extract"
               (group_of "json_extract" (duckdb_functions sample_catalog))).
  assert (Hr : r ∈ fns).
  { vm_compute in E. injection E as <-. vm_compute. set_solver. }
  exists fns, r. split; [done|]. split; [done|]. split; [reflexivity|].
  destruct (example_is_first_of_max sample_catalog EXCLUDED_KEYWORDS fns r E Hr)
    as (_ & _ & Hmax).
  destruct (Hmax "json_extract(y,'$.b')") as (row & rest & Hrow & Hex & _);
    [reflexivity|].
  exists row, rest. split; [exact Hrow|]. split; [reflexivity|exact Hex].
Defined.

(** C7, as stated, fails: with two overloads of [json_extract] whose
    examples differ, the cell records the greater example, not the example
    of the first overload. *)
Lemma example_not_of_first_overload :
  ~ (forall c P fns r,
       functions c P = Some fns -> r ∈ fns ->
       example r
       = spec_first_example (fo_function_name r) (duckdb_functions c)).
Proof.
  intros H.
  pose (r := aggregate_group "json_extract"
               (group_of "json_extract" (duckdb_functions sample_catalog))).
  destruct (functions sample_catalog EXCLUDED_KEYWORDS) as [fns|] eqn:E;
    [|vm_compute in E; discriminate E].
  assert (Hr : r ∈ fns).
  { vm_compute in E. injection E as <-. vm_compute. set_solver. }
  specialize (H sample_catalog EXCLUDED_KEYWORDS fns r E Hr).
  vm_compute in H. discriminate H.
Qed.

(** ** The [df] cell and what is exported of it *)

Lemma df_inv (c : catalog) (P : list string) (v : string) (d : date)
    (frame : DataFrame) :
  df c P v d = Some frame ->
  exists keep,
    Sql.where_ "keyword" (filter_keywords_query "keyword" P) = Some keep
    /\ frame = [df_row keep c v d].
Proof.
  unfold df. destruct (Sql.where_ _ _) as [keep|]; [|done].
  intros [= <-]. by exists keep.
Qed.

Lemma exported_row (keep : string -> bool) (c : catalog) (v : string) (d : date) :
  select_exclude "builtin" [df_row keep c v d]
  = [[ ("duckdb_version", Text (Some v));
       ("last_updated", Day d);
       ("keywords", Text (Agg.string_agg (all_keywords keep c)));
       ("types", Text (Agg.string_agg (duckdb_types c))) ]].
Proof. reflexivity. Qed.

Lemma all_keywords_elem (keep : string -> bool) (c : catalog) (n : string) :
  n ∈ all_keywords keep c <-> n ∈ catalog_names c /\ keep n = true.
Proof.
  unfold all_keywords, catalog_names. rewrite !list_elem_of_fmap. split.
  - intros (kw & -> & [Hk Hkw]%list_elem_of_filter).
    split; [by exists kw|]. by apply Is_true_true.
  - intros [(kw & -> & Hkw) Hk]. exists kw. split; [done|].
    apply list_elem_of_filter. split; [by apply Is_true_true|done].
Qed.

Lemma types_in_catalog_names (c : catalog) (n : string) :
  n ∈ duckdb_types c -> n ∈ catalog_names c.
Proof.
  intros H. unfold catalog_names, stg_keywords.
  rewrite !map_app, !elem_of_app. do 3 right.
  rewrite map_map. simpl. by rewrite map_id.
Qed.

Lemma tokens_exported (column : string) (r : row) (names : list string) :
  field column r = Some (Text (Agg.join_or_null names)) ->
  Forall (fun n => Str.has_char " " n = false) names ->
  forall toks, tokens column [r] = Some toks -> toks = names.
Proof.
  intros Hf Hfree toks. unfold tokens. rewrite Hf.
  destruct names as [|n names]; [done|].
  change (Agg.join_or_null (n :: names))
    with (Some (Str.join " " (n :: names))).
  intros [= Ht]. rewrite <- Ht. by apply (split_on_join (n :: names)).
Qed.




(** with prefixes that hold neither a quote nor a wildcard, the generated
    filter is the literal one: a name passes when it starts with no prefix *)
Lemma passes_literal (P : list string) (name : string) :
  Forall (fun kw => wildcard_free kw = true) P ->
  Sql.passes (patterns_of P) name
  = forallb (fun p => negb (Str.starts_with name p)) P.
Proof.
  unfold Sql.passes, patterns_of. induction 1 as [|p P Hp _ IH]; [done|].
  simpl. by rewrite IH, like_prefix_literal.
Qed.

(** C1, at the failing input. With the notebook's own exclusion list, the
    function name [hash] starts with none of the excluded prefixes and is a
    catalog name, yet the [keywords] string does not hold it: the pattern
    [has_%] matches it, [_] standing for its last letter. *)
Theorem like_filter_drops_hash :
  forallb (fun p => negb (Str.starts_with "hash" p)) EXCLUDED_KEYWORDS = true
  /\ "hash" ∈ catalog_names sample_catalog
  /\ Sql.like "has_%" "hash" = true
  /\ exists frame,
       df sample_catalog EXCLUDED_KEYWORDS "v1.3.2" sample_date = Some frame
       /\ tokens "keywords" frame
          = Some ["abs"; "count"; "group"; "integer"; "json_extract";
                  "select"; "threads"; "varchar"].
Proof.
  split; [reflexivity|]. split; [vm_compute; set_solver|].
  split; [reflexivity|].
  eexists. split; vm_compute; reflexivity.
Qed.

(** C2, at the failing input. For the empty exclusion list the generated
    condition is the empty text; the statement then reads [WHERE] followed
    by nothing and the engine rejects it, so neither frame exists and the
    run raises without touching any file. *)
Theorem empty_exclusions_rejected (c : catalog) (v : string) (d : date)
    (mode args_savepath : string) (form_value : option string)
    (fs : Fs.state) :
  filter_keywords_query "keyword" [] = ""
  /\ df c [] v d = None
  /\ functions c [] = None
  /\ run c v d [] mode args_savepath form_value fs
     = (Fs.Raised Fs.SqlError, fs).
Proof.
  split; [reflexivity|].
  assert (Hdf : df c [] v d = None).
  { unfold df. by rewrite where_empty. }
  split; [exact Hdf|]. split.
  - unfold functions. by rewrite where_empty.
  - unfold run. by rewrite Hdf.
Qed.

Lemma functions_names_kept (c : catalog) (P : list string)
    (fns : list function_overloads) (r : function_overloads) :
  functions c P = Some fns -> r ∈ fns ->
  exists keep,
    Sql.where_ "function_name" (filter_keywords_query "function_name" P)
      = Some keep
    /\ keep (fo_function_name r) = true.
Proof.
  intros (keep & Hw & ->)%functions_inv Hr. exists keep. split; [done|].
  simpl in Hr. apply list_elem_of_fmap in Hr as (name & -> & Hname).
  apply distinct_ordered_elem, list_elem_of_fmap in Hname
    as (row & -> & Hrow).
  apply list_elem_of_filter in Hrow as [Hkeep _].
  by apply Is_true_true in Hkeep.
Qed.

Lemma where_quote_free (column : string) (P : list string)
    (keep : string -> bool) :
  Forall (fun kw => quote_free kw = true) P ->
  Sql.where_ column (filter_keywords_query column P) = Some keep ->
  keep = Sql.passes (patterns_of P).
Proof.
  intros Hq Hw. destruct P as [|kw P].
  - rewrite where_empty in Hw. discriminate.
  - rewrite where_generated in Hw by done. congruence.
Qed.

(** C4, as the code has it. For quote-free prefixes: the exported
    [keywords] string joins exactly the catalog names that match none of
    the generated patterns; none of them starts with an excluded prefix;
    no key of the function dictionary starts with an excluded prefix, and
    every key starts with a prefix of the allow-list.  Nothing is said of
    [types]. *)
Theorem excluded_names_absent (c : catalog) (P : list string) (v : string)
    (d : date) (frame : DataFrame) (fns : list function_overloads) :
  Forall (fun kw => quote_free kw = true) P ->
  df c P v d = Some frame -> functions c P = Some fns ->
  exists kw : list string,
    (exists r, select_exclude "builtin" frame = [r]
               /\ field "keywords" r = Some (Text (Agg.join_or_null kw)))
    /\ (forall n, n ∈ kw
                  <-> n ∈ catalog_names c
                      /\ Sql.passes (patterns_of P) n = true)
    /\ (forall n p, n ∈ kw -> p ∈ P -> Str.starts_with n p = false)
    /\ (forall key p, is_Some (dict_get (fn_dict fns) key) -> p ∈ P ->
                      Str.starts_with key p = false)
    /\ (forall key, is_Some (dict_get (fn_dict fns) key) ->
                    exists prefix, prefix ∈ included_functions
                                   /\ Str.starts_with key prefix = true)
    /\ (space_free c ->
        forall toks n p,
          tokens "keywords" (select_exclude "builtin" frame) = Some toks ->
          n ∈ toks -> p ∈ P -> Str.starts_with n p = false).
Proof.
  intros Hq (keep & Hw & ->)%df_inv Hfns.
  apply (where_quote_free _ _ _ Hq) in Hw as ->.
  set (keep := Sql.passes (patterns_of P)).
  exists (Agg.distinct_ordered (all_keywords keep c)).
  assert (Hkw : forall n, n ∈ Agg.distinct_ordered (all_keywords keep c)
                          <-> n ∈ catalog_names c /\ keep n = true).
  { intros n. rewrite distinct_ordered_elem. apply all_keywords_elem. }
  assert (Hno : forall n p, n ∈ Agg.distinct_ordered (all_keywords keep c) ->
                            p ∈ P -> Str.starts_with n p = false).
  { intros n p [_ Hn]%Hkw Hp. by apply (passes_no_prefix P). }
  split; [eexists; split; [apply exported_row|reflexivity]|].
  split; [exact Hkw|]. split; [exact Hno|]. split; [|split].
  - intros key p (r & Hr & <- & _ & _)%fn_dict_of_keys Hp.
    destruct (functions_names_kept c P fns r Hfns Hr) as (keep' & Hw' & Hk).
    apply (where_quote_free _ _ _ Hq) in Hw' as ->.
    by apply (passes_no_prefix P).
  - intros key (r & _ & <- & Hpre & _)%fn_dict_of_keys.
    by apply prefix_filter_spec.
  - intros Hfree toks n p Htoks Hn Hp. rewrite exported_row in Htoks.
    assert (toks = Agg.distinct_ordered (all_keywords keep c)) as ->.
    { refine (tokens_exported "keywords" _ _ _ _ toks Htoks); [reflexivity|].
      unfold space_free in Hfree. rewrite Forall_forall in Hfree.
      apply Forall_forall. intros m Hm. apply Hfree.
      by apply Hkw in Hm as [? _]. }
    by apply Hno.
Qed.

Lemma excluded_names_absent_witness :
  exists frame fns,
    df sample_catalog EXCLUDED_KEYWORDS "v1.3.2" sample_date = Some frame
    /\ functions sample_catalog EXCLUDED_KEYWORDS = Some fns
    /\ tokens "keywords" (select_exclude "builtin" frame)
       = Some ["abs"; "count"; "group"; "integer"; "json_extract"; "select";
               "threads"; "varchar"]
    /\ forall n p,
         n ∈ ["abs"; "count"; "group"; "integer"; "json_extract"; "select";
              "threads"; "varchar"] ->
         p ∈ EXCLUDED_KEYWORDS -> Str.starts_with n p = false.
Proof.
  destruct (df sample_catalog EXCLUDED_KEYWORDS "v1.3.2" sample_date)
    as [frame|] eqn:E; [|vm_compute in E; discriminate E].
  destruct (functions sample_catalog EXCLUDED_KEYWORDS) as [fns|] eqn:F;
    [|vm_compute in F; discriminate F].
  exists frame, fns. split; [done|]. split; [done|].
  assert (Ht : tokens "keywords" (select_exclude "builtin" frame)
               = Some ["abs"; "count"; "group"; "integer"; "json_extract";
                       "select"; "threads"; "varchar"]).
  { vm_compute in E. injection E as <-. vm_compute. reflexivity. }
  split; [exact Ht|].
  destruct (excluded_names_absent sample_catalog EXCLUDED_KEYWORDS
              "v1.3.2" sample_date frame fns
              ltac:(vm_compute; repeat constructor) E F)
    as (kw & _ & _ & _ & _ & _ & Htok).
  intros n p. apply (Htok ltac:(unfold space_free; vm_compute; repeat constructor) _ n p Ht).
Defined.

(** where no prefix holds a quote or a wildcard, the [keywords] string joins
    exactly the catalog names that start with no excluded prefix *)
Lemma keywords_literal_filter (c : catalog) (P : list string) (v : string)
    (d : date) (frame : DataFrame) :
  Forall (fun kw => quote_free kw = true) P ->
  Forall (fun kw => wildcard_free kw = true) P ->
  df c P v d = Some frame ->
  exists kw : list string,
    (exists r, select_exclude "builtin" frame = [r]
               /\ field "keywords" r = Some (Text (Agg.join_or_null kw)))
    /\ forall n, n ∈ kw
                 <-> n ∈ catalog_names c
                     /\ forall p, p ∈ P -> Str.starts_with n p = false.
Proof.
  intros Hq Hwild (keep & Hw & ->)%df_inv.
  apply (where_quote_free _ _ _ Hq) in Hw as ->.
  exists (Agg.distinct_ordered (all_keywords (Sql.passes (patterns_of P)) c)).
  split; [eexists; split; [apply exported_row|reflexivity]|].
  intros n. rewrite distinct_ordered_elem, all_keywords_elem.
  rewrite (passes_literal P n Hwild), forallb_forall.
  split; intros [Hn H]; (split; [done|]); intros p Hp.
  - apply negb_true_iff, H. by apply list_elem_of_In.
  - apply negb_true_iff, H. by apply list_elem_of_In.
Qed.

(** C4, as stated, fails on [types]: the type names are aggregated without
    any filter, so a type name that starts with an excluded prefix is
    exported. *)
Lemma types_field_keeps_excluded_names :
  ~ (forall c P v d frame toks n p,
       df c P v d = Some frame ->
       tokens "types" (select_exclude "builtin" frame) = Some toks ->
       n ∈ toks -> p ∈ P -> Str.starts_with n p = false).
Proof.
  intros H.
  specialize (H sample_catalog EXCLUDED_KEYWORDS "v1.3.2" sample_date
                _ ["integer"; "pg_node_tree"; "varchar"] "pg_node_tree" "pg_"
                eq_refl).
  assert (Str.starts_with "pg_node_tree" "pg_" = false) as Hf.
  { apply H; [vm_compute; reflexivity | set_solver | set_solver]. }
  vm_compute in Hf. discriminate Hf.
Qed.

(** ** Writing files *)

Section FsFacts.

Lemma write_ok (p : string) (data : Fs.document) (fs fs' : Fs.state) :
  Fs.write p data fs = (Fs.Ok tt, fs') ->
  Fs.is_dir fs (removelast (Fs.components p)) = true
  /\ Fs.is_dir fs (Fs.components p) = false
  /\ fs' = <[Fs.components p := Fs.File data]> fs.
Proof.
  unfold Fs.write. destruct (decide (p = "")); [done|].
  destruct (Fs.is_dir fs (removelast (Fs.components p))); simpl; [|done].
  destruct (Fs.is_dir fs (Fs.components p)); [done|].
  by intros [= <-].
Qed.

Lemma write_raised (p : string) (data : Fs.document) (fs fs' : Fs.state)
    (e : Fs.error) :
  Fs.write p data fs = (Fs.Raised e, fs') -> fs' = fs.
Proof.
  unfold Fs.write. destruct (decide (p = "")); [by intros [= _ <-]|].
  destruct (Fs.is_dir fs (removelast (Fs.components p))); simpl;
    [|by intros [= _ <-]].
  destruct (Fs.is_dir fs (Fs.components p)); [by intros [= _ <-]|done].
Qed.

(** a file name appended after a slash is one more name on the path *)
Lemma components_child (p name : string) :
  name <> "" -> name <> "." -> Str.has_char "/" name = false ->
  Fs.components (p +:+ String "/" name) = Fs.components p ++ [name].
Proof.
  intros H1 H2 Hfree. unfold Fs.components.
  rewrite split_on_app, filter_app, (split_on_free _ _ Hfree).
  by rewrite filter_cons_True.
Qed.

Lemma components_keywords (p : string) :
  Fs.components (p +:+ "/keywords.json") = Fs.components p ++ ["keywords.json"].
Proof. by apply (components_child p "keywords.json"). Qed.

Lemma components_functions (p : string) :
  Fs.components (p +:+ "/functions.json")
  = Fs.components p ++ ["functions.json"].
Proof. by apply (components_child p "functions.json"). Qed.

Lemma is_dir_file (fs : Fs.state) (q : Fs.path) (data : Fs.document) :
  q <> [] -> Fs.is_dir (<[q := Fs.File data]> fs) q = false.
Proof.
  intros Hq. unfold Fs.is_dir. destruct q; [done|].
  by rewrite lookup_insert_eq.
Qed.

Lemma is_dir_nil_false (fs : Fs.state) (q : Fs.path) :
  Fs.is_dir fs q = false -> q <> [].
Proof. by destruct q. Qed.

End FsFacts.

Lemma field_exclude (name column : string) (r : list (string * cell)) :
  field column (filter (fun col : string * cell => fst col <> name) r)
  = if String.eqb name column then None else field column r.
Proof.
  induction r as [|[k x] r IH].
  - simpl. by destruct (String.eqb name column).
  - rewrite filter_cons.
    destruct (decide ((k, x).1 <> name)) as [Hk|Hk]; simpl in *.
    + rewrite IH. destruct (String.eqb_spec k column) as [->|_]; [|done].
      apply not_eq_sym, String.eqb_neq in Hk. by rewrite Hk.
    + apply dec_stable in Hk as ->. rewrite IH.
      by destruct (String.eqb name column).
Qed.

(** C8, as the code has it. What [write_to_file] stores is a JSON array
    that holds one object, the single row of the frame.  The object has
    exactly the fields [duckdb_version], [last_updated], [keywords] and
    [types], in this order: [builtin] is left out, each other field carries
    the value of the frame's cell, and no other path of the disk changes. *)
Theorem keywords_document_is_one_object_array (c : catalog) (P : list string)
    (v : string) (d : date) (frame : DataFrame) (filepath : string)
    (fs fs' : Fs.state) :
  df c P v d = Some frame ->
  write_to_file frame filepath fs = (Fs.Ok tt, fs') ->
  exists r doc kw ty,
    frame = [r]
    /\ columns r = ["duckdb_version"; "last_updated"; "keywords"; "builtin";
                    "types"]
    /\ field "duckdb_version" r = Some (Text (Some v))
    /\ field "last_updated" r = Some (Day d)
    /\ field "keywords" r = Some (Text kw)
    /\ field "types" r = Some (Text ty)
    /\ fs' !! Fs.components filepath = Some (Fs.File doc)
    /\ json_of doc
       = JArray [ JObject [ ("duckdb_version", JString v);
                            ("last_updated", JDate d);
                            ("keywords", json_of_text kw);
                            ("types", json_of_text ty) ] ]
    /\ forall q, q <> Fs.components filepath -> fs' !! q = fs !! q.
Proof.
  intros (keep & _ & ->)%df_inv (_ & _ & ->)%write_ok.
  exists (df_row keep c v d),
    (Fs.WriteJson (select_exclude "builtin" [df_row keep c v d])),
    (Agg.string_agg (all_keywords keep c)),
    (Agg.string_agg (duckdb_types c)).
  split; [done|]. split; [done|]. split; [done|]. split; [done|].
  split; [done|]. split; [done|].
  split; [by rewrite lookup_insert_eq|]. split; [done|].
  intros q Hq. by rewrite lookup_insert_ne.
Qed.

Lemma keywords_document_is_one_object_array_witness :
  exists fs' doc,
    write_to_file
      [df_row (Sql.passes (patterns_of EXCLUDED_KEYWORDS)) sample_catalog
         "v1.3.2" sample_date]
      "keywords.json" ∅ = (Fs.Ok tt, fs')
    /\ fs' !! ["keywords.json"] = Some (Fs.File doc)
    /\ json_of doc
       = JArray [ JObject [ ("duckdb_version", JString "v1.3.2");
                            ("last_updated", JDate (2025, 8, 1));
                            ("keywords",
                             JString "abs count group integer json_extract select threads varchar");
                            ("types", JString "integer pg_node_tree varchar") ] ].
Proof.
  destruct (write_to_file
              [df_row (Sql.passes (patterns_of EXCLUDED_KEYWORDS))
                 sample_catalog "v1.3.2" sample_date]
              "keywords.json" ∅) as [[[]|e] fs'] eqn:W;
    [|vm_compute in W; discriminate W].
  destruct (keywords_document_is_one_object_array sample_catalog
              EXCLUDED_KEYWORDS "v1.3.2" sample_date _ "keywords.json" ∅ fs'
              eq_refl W)
    as (r & doc & kw & ty & [= <-] & _ & _ & _ & Hkw & Hty & Hdoc & Hjson & _).
  exists fs', doc. split; [done|]. split; [exact Hdoc|].
  rewrite Hjson. vm_compute in Hkw, Hty.
  injection Hkw as <-. injection Hty as <-. reflexivity.
Defined.

(** C8, as stated, fails: the stored document is an array, not an object,
    whatever the catalog; here for the sample catalog. *)
Lemma keywords_document_not_an_object :
  ~ (forall c P v d frame filepath fs fs' doc,
       df c P v d = Some frame ->
       write_to_file frame filepath fs = (Fs.Ok tt, fs') ->
       fs' !! Fs.components filepath = Some (Fs.File doc) ->
       exists fields, json_of doc = JObject fields).
Proof.
  intros H.
  destruct (H sample_catalog EXCLUDED_KEYWORDS "v1.3.2" sample_date
              [df_row (Sql.passes (patterns_of EXCLUDED_KEYWORDS))
                 sample_catalog "v1.3.2" sample_date]
              "keywords.json" ∅
              (<[ ["keywords.json"]
                  := Fs.File
                       (Fs.WriteJson
                          (select_exclude "builtin"
                             [df_row (Sql.passes (patterns_of EXCLUDED_KEYWORDS))
                                sample_catalog "v1.3.2" sample_date])) ]> ∅)
              (Fs.WriteJson
                 (select_exclude "builtin"
                    [df_row (Sql.passes (patterns_of EXCLUDED_KEYWORDS))
                       sample_catalog "v1.3.2" sample_date])))
    as [fields Hf].
  - reflexivity.
  - reflexivity.
  - apply lookup_insert_eq.
  - discriminate Hf.
Qed.

(** C10. Outside script mode, with the form not submitted or holding
    whitespace only, a run leaves the file system as it found it. *)
Theorem blank_form_writes_nothing (c : catalog) (v : string) (d : date)
    (P : list string) (mode args_savepath : string)
    (form_value : option string) (fs : Fs.state) :
  mode <> "script" ->
  (form_value = None
   \/ exists s, form_value = Some s /\ Str.all_chars Str.isspace s = true) ->
  snd (run c v d P mode args_savepath form_value fs) = fs.
Proof.
  intros Hmode%String.eqb_neq Hform. unfold run.
  destruct (df c P v d) as [frame|]; [|done].
  destruct (functions c P) as [fns|]; [|done].
  destruct (num_keywords frame); [|done].
  destruct (num_types frame); [|done].
  unfold export_cell. rewrite Hmode.
  destruct Hform as [->|(s & -> & Hs)]; [done|].
  apply strip_whitespace in Hs. by rewrite Hs.
Qed.

Lemma blank_form_writes_nothing_witness :
  snd (run sample_catalog "v1.3.2" sample_date EXCLUDED_KEYWORDS
           "edit" "temp.json" (Some "   ") ∅) = ∅.
Proof.
  apply blank_form_writes_nothing; [discriminate|].
  right. exists "   ". split; reflexivity.
Defined.

(** ** The export cell *)

Section ExportFacts.

Variables (df_ : DataFrame) (fn_dict_ : pydict fn_entry).

Lemma bind_ok {A B} (m : Fs.M A) (k : A -> Fs.M B) (fs fs' : Fs.state) (b : B) :
  Fs.bind m k fs = (Fs.Ok b, fs') ->
  exists a fs0, m fs = (Fs.Ok a, fs0) /\ k a fs0 = (Fs.Ok b, fs').
Proof.
  unfold Fs.bind. destruct (m fs) as [[a|e] fs0]; [|done].
  intros H. by exists a, fs0.
Qed.

Lemma is_dir_insert_ne (fs : Fs.state) (q q' : Fs.path) (n : Fs.node) :
  q <> q' -> Fs.is_dir (<[q' := n]> fs) q = Fs.is_dir fs q.
Proof.
  intros Hq. unfold Fs.is_dir. destruct q; [done|].
  by rewrite lookup_insert_ne.
Qed.

Lemma child_ne_parent (q : Fs.path) (name : string) : q <> q ++ [name].
Proof.
  intros H. apply (f_equal length) in H. rewrite length_app in H.
  simpl in H. lia.
Qed.

(** Script mode: the keywords file is written at [savepath] itself, so
    [savepath] is a file when the functions file is opened below it; the
    cell raises, whatever the path and the disk, and makes no directory. *)
Lemma script_mode_raises (args_savepath : string) (form_value : option string)
    (fs : Fs.state) :
  exists e fs',
    export_cell "script" args_savepath form_value df_ fn_dict_ fs
    = (Fs.Raised e, fs')
    /\ forall q, fs' !! q = Some Fs.Dir -> fs !! q = Some Fs.Dir.
Proof.
  unfold export_cell. rewrite String.eqb_refl.
  unfold Fs.bind, write_to_file, save_to_json.
  destruct (Fs.write args_savepath
              (Fs.WriteJson (select_exclude "builtin" df_)) fs)
    as [[[]|e] fs1] eqn:W.
  - apply write_ok in W as (_ & Hfile & ->).
    set (q := Fs.components args_savepath) in *.
    pose proof (is_dir_nil_false _ _ Hfile) as Hq.
    unfold Fs.write.
    destruct (decide (args_savepath +:+ "/functions.json" = "")) as [He|_].
    { destruct args_savepath; discriminate He. }
    rewrite components_functions. fold q.
    rewrite removelast_last, is_dir_file by done. simpl.
    eexists _, _. split; [reflexivity|].
    intros q' Hq'. destruct (decide (q = q')) as [<-|Hne].
    + rewrite lookup_insert_eq in Hq'. discriminate.
    + by rewrite lookup_insert_ne in Hq'.
  - apply write_raised in W as ->. by exists e, fs.
Qed.

(** all a script-mode run can leave behind is the keywords frame in the
    file [savepath] *)
Lemma script_mode_leaves (args_savepath : string) (form_value : option string)
    (fs fs' : Fs.state) (res : Fs.outcome unit) :
  export_cell "script" args_savepath form_value df_ fn_dict_ fs = (res, fs') ->
  fs' = fs
  \/ fs' = <[Fs.components args_savepath
             := Fs.File (Fs.WriteJson (select_exclude "builtin" df_))]> fs.
Proof.
  unfold export_cell. rewrite String.eqb_refl.
  unfold Fs.bind, write_to_file, save_to_json.
  destruct (Fs.write args_savepath
              (Fs.WriteJson (select_exclude "builtin" df_)) fs)
    as [[[]|e] fs1] eqn:W.
  - apply write_ok in W as (_ & Hfile & ->).
    pose proof (is_dir_nil_false _ _ Hfile) as Hq.
    destruct (Fs.write _ _ _) as [[[]|e] fs2] eqn:W2; intros [= _ <-].
    + apply write_ok in W2 as (Hdir & _ & _).
      rewrite components_functions, removelast_last in Hdir.
      rewrite is_dir_file in Hdir by done. discriminate Hdir.
    + apply write_raised in W2 as ->. by right.
  - apply write_raised in W as ->. intros [= _ <-]. by left.
Qed.

(** Outside script mode with a path in the form: when the cell returns,
    both files hold what was serialised in this run and the folder is a
    directory. *)
Lemma export_interactive (mode args_savepath s : string) (fs fs' : Fs.state) :
  mode <> "script" -> Str.strip s <> "" ->
  export_cell mode args_savepath (Some s) df_ fn_dict_ fs = (Fs.Ok tt, fs') ->
  fs' !! Fs.components (s +:+ "/keywords.json")
  = Some (Fs.File (Fs.WriteJson (select_exclude "builtin" df_)))
  /\ fs' !! Fs.components (s +:+ "/functions.json")
     = Some (Fs.File (Fs.JsonDump fn_dict_ 4))
  /\ Fs.is_dir fs' (Fs.components s) = true.
Proof.
  intros Hmode%String.eqb_neq Hs%String.eqb_neq. unfold export_cell.
  rewrite Hmode, Hs. cbn [negb].
  intros ([] & fs0 & _ & H)%bind_ok.
  apply bind_ok in H as ([] & fs1 & W1 & W2).
  unfold write_to_file in W1. unfold save_to_json in W2.
  apply write_ok in W1 as (Hdir & _ & ->).
  apply write_ok in W2 as (_ & _ & ->).
  rewrite components_keywords, components_functions in *.
  rewrite removelast_last in Hdir.
  assert (Fs.components s ++ ["functions.json"]
          <> Fs.components s ++ ["keywords.json"]) as Hne.
  { intros H%app_inv_head. discriminate H. }
  split; [|split].
  - by rewrite lookup_insert_ne, lookup_insert_eq.
  - by rewrite lookup_insert_eq.
  - rewrite !is_dir_insert_ne; [done | apply child_ne_parent..].
Qed.

End ExportFacts.



(** C5, at the failing input. Script mode with the default [--savepath],
    on a disk where nothing exists yet: the keywords frame is written to
    the file [temp.json], no directory is made, and opening
    [temp.json/functions.json] raises because [temp.json] is a file.  The
    same catalog exported from the form makes the folder first and writes
    both files. *)
Theorem script_mode_makes_no_directory :
  exists frame fs',
    df sample_catalog EXCLUDED_KEYWORDS "v1.3.2" sample_date = Some frame
    /\ run sample_catalog "v1.3.2" sample_date EXCLUDED_KEYWORDS
           "script" "temp.json" None ∅
       = (Fs.Raised Fs.NotADirectoryError, fs')
    /\ fs' !! ["temp.json"]
       = Some (Fs.File (Fs.WriteJson (select_exclude "builtin" frame)))
    /\ fs' !! ["temp.json"; "functions.json"] = None
    /\ (forall q, fs' !! q <> Some Fs.Dir)
    /\ exists fs'',
         run sample_catalog "v1.3.2" sample_date EXCLUDED_KEYWORDS
             "edit" "temp.json" (Some "out") ∅ = (Fs.Ok tt, fs'')
         /\ fs'' !! ["out"] = Some Fs.Dir
         /\ fs'' !! ["out"; "keywords.json"]
            = Some (Fs.File (Fs.WriteJson (select_exclude "builtin" frame)))
         /\ is_Some (fs'' !! ["out"; "functions.json"]).
Proof.
  destruct (df sample_catalog EXCLUDED_KEYWORDS "v1.3.2" sample_date)
    as [frame|] eqn:E; [|vm_compute in E; discriminate E].
  destruct (functions sample_catalog EXCLUDED_KEYWORDS) as [fns|] eqn:F;
    [|vm_compute in F; discriminate F].
  assert (Hcount : num_keywords frame = Some 8 /\ num_types frame = Some 3).
  { pose proof E as E'. vm_compute in E'. injection E' as <-.
    split; reflexivity. }
  destruct Hcount as [Hk Ht].
  exists frame,
    (<[ ["temp.json"]
        := Fs.File (Fs.WriteJson (select_exclude "builtin" frame)) ]> ∅).
  split; [done|]. split; [|split; [|split; [|split]]].
  - unfold run. rewrite E, F, Hk, Ht. reflexivity.
  - by rewrite lookup_insert_eq.
  - by rewrite lookup_insert_ne.
  - intros q. destruct (decide (q = ["temp.json"])) as [->|Hq].
    + by rewrite lookup_insert_eq.
    + by rewrite lookup_insert_ne, lookup_empty.
  - exists (<[ ["out"; "functions.json"]
               := Fs.File (Fs.JsonDump (fn_dict fns) 4) ]>
            (<[ ["out"; "keywords.json"]
                := Fs.File (Fs.WriteJson (select_exclude "builtin" frame)) ]>
             (<[ ["out"] := Fs.Dir ]> ∅))).
    split; [|split; [|split]].
    + unfold run. rewrite E, F, Hk, Ht. reflexivity.
    + do 2 (rewrite lookup_insert_ne by done). by rewrite lookup_insert_eq.
    + rewrite lookup_insert_ne by done. by rewrite lookup_insert_eq.
    + rewrite lookup_insert_eq. by eexists.
Qed.

(** * Further properties of the cells *)

(** membership in a list written out *)
Ltac in_list :=
  repeat first [apply list_elem_of_here | apply list_elem_of_further].

(** ** The generated filter *)

Lemma keywords_literal_filter_witness :
  exists frame kw,
    df sample_catalog ["icu"; "allocator"] "v1.3.2" sample_date = Some frame
    /\ (exists r, select_exclude "builtin" frame = [r]
                  /\ field "keywords" r = Some (Text (Agg.join_or_null kw)))
    /\ "hash" ∈ kw /\ "icu_sort_key" ∉ kw.
Proof.
  destruct (df sample_catalog ["icu"; "allocator"] "v1.3.2" sample_date)
    as [frame|] eqn:E; [|vm_compute in E; discriminate E].
  destruct (keywords_literal_filter sample_catalog ["icu"; "allocator"]
              "v1.3.2" sample_date frame
              ltac:(vm_compute; repeat constructor)
              ltac:(vm_compute; repeat constructor) E)
    as (kw & Hfield & Hkw).
  exists frame, kw. split; [done|]. split; [done|]. split.
  - apply Hkw. split; [vm_compute; in_list|].
    intros p [->|[->|[]%elem_of_nil]%elem_of_cons]%elem_of_cons; reflexivity.
  - intros [_ H]%Hkw. specialize (H "icu" ltac:(in_list)). discriminate H.
Defined.

(** The text generated for a non-empty list of quote-free prefixes is
    read back by the engine as one pattern [prefix%] per prefix, in order,
    with any fuel that covers the list; the condition it denotes keeps a
    name exactly when the name matches none of these patterns. *)
Theorem generated_filter_reads_back (column : string) (P : list string) :
  P <> [] -> Forall (fun kw => quote_free kw = true) P ->
  (forall fuel, length P <= fuel ->
     Sql.parse_where fuel column (filter_keywords_query column P)
     = Some (map (fun kw => kw +:+ "%") P))
  /\ exists keep,
       Sql.where_ column (filter_keywords_query column P) = Some keep
       /\ forall name,
            keep name = true
            <-> forall p, p ∈ P -> Sql.like (p +:+ "%") name = false.
Proof.
  intros Hne Hq. split.
  - intros fuel Hfuel. by apply parse_generated.
  - exists (Sql.passes (patterns_of P)). split; [by apply where_generated|].
    intros name. unfold Sql.passes, patterns_of.
    rewrite forallb_forall. split.
    + intros H p Hp. apply negb_true_iff, H, in_map_iff.
      exists p. split; [done|]. by apply list_elem_of_In.
    + intros H pat (p & <- & Hp)%in_map_iff.
      apply negb_true_iff, H. by apply list_elem_of_In.
Qed.

Lemma generated_filter_reads_back_witness :
  Sql.parse_where 5 "keyword" (filter_keywords_query "keyword" EXCLUDED_KEYWORDS)
  = Some ["__internal%"; "icu%"; "has_%"; "pg_%"; "allocator%"].
Proof.
  apply (generated_filter_reads_back "keyword" EXCLUDED_KEYWORDS);
    [discriminate | vm_compute; repeat constructor | simpl; lia].
Defined.

Lemma like_trailing_underscore (q name : string) :
  wildcard_free q = true ->
  Sql.like ((q +:+ "_") +:+ "%") name
  = Str.starts_with name q && (String.length q <? String.length name).
Proof.
  unfold wildcard_free, Str.has_char. rewrite !negb_involutive.
  revert name. induction q as [|a q IH]; intros name H.
  - rewrite app_nil_l_s.
    change ("_" +:+ "%") with (String "_" "%").
    rewrite like_underscore. destruct name as [|c name]; [done|].
    by rewrite like_any.
  - simpl in H. apply andb_prop in H as [[H1 H2]%andb_prop [H3 H4]%andb_prop].
    apply negb_true_iff, Ascii.eqb_neq in H1, H3.
    rewrite !app_cons_s, like_char by done.
    destruct name as [|c name]; [done|]. simpl.
    rewrite IH; [|by rewrite H2, H4].
    by rewrite andb_assoc.
Qed.

(** A prefix that ends in an underscore, such as [has_] or [pg_], excludes
    more than the names that start with it: every catalog name that starts
    with the part before the underscore and has at least one more
    character is missing from the exported [keywords] string. *)
Theorem trailing_underscore_excludes (c : catalog) (P : list string)
    (v : string) (d : date) (frame : DataFrame) (q : string) :
  Forall (fun kw => quote_free kw = true) P ->
  wildcard_free q = true -> (q +:+ "_") ∈ P ->
  df c P v d = Some frame ->
  exists kw : list string,
    (exists r, select_exclude "builtin" frame = [r]
               /\ field "keywords" r = Some (Text (Agg.join_or_null kw)))
    /\ (forall n, n ∈ kw -> n ∈ catalog_names c)
    /\ forall n, Str.starts_with n q = true ->
                 String.length q < String.length n -> n ∉ kw.
Proof.
  intros Hq Hwild Hin (keep & Hw & ->)%df_inv.
  apply (where_quote_free _ _ _ Hq) in Hw as ->.
  exists (Agg.distinct_ordered (all_keywords (Sql.passes (patterns_of P)) c)).
  split; [eexists; split; [apply exported_row|reflexivity]|]. split.
  - intros n Hn. by apply distinct_ordered_elem, all_keywords_elem in Hn as [? _].
  - intros n Hst Hlen Hn.
    apply distinct_ordered_elem, all_keywords_elem in Hn as [_ Hn].
    unfold Sql.passes, patterns_of in Hn. rewrite forallb_forall in Hn.
    specialize (Hn ((q +:+ "_") +:+ "%")).
    rewrite like_trailing_underscore, Hst in Hn by done.
    apply Nat.ltb_lt in Hlen. rewrite Hlen in Hn.
    assert (negb (true && true) = true); [|done].
    apply Hn, in_map_iff. exists (q +:+ "_"). split; [done|].
    by apply list_elem_of_In.
Qed.

Lemma trailing_underscore_excludes_witness :
  exists frame kw,
    df sample_catalog EXCLUDED_KEYWORDS "v1.3.2" sample_date = Some frame
    /\ (exists r, select_exclude "builtin" frame = [r]
                  /\ field "keywords" r = Some (Text (Agg.join_or_null kw)))
    /\ "hash" ∉ kw.
Proof.
  destruct (df sample_catalog EXCLUDED_KEYWORDS "v1.3.2" sample_date)
    as [frame|] eqn:E; [|vm_compute in E; discriminate E].
  destruct (trailing_underscore_excludes sample_catalog EXCLUDED_KEYWORDS
              "v1.3.2" sample_date frame "has"
              ltac:(vm_compute; repeat constructor) eq_refl
              ltac:(vm_compute; in_list) E)
    as (kw & Hfield & _ & Hout).
  exists frame, kw. split; [done|]. split; [done|].
  apply Hout; [reflexivity | simpl; lia].
Defined.

(** ** The [functions] cell *)

Lemma string_leb_refl (x : string) : String.leb x x = true.
Proof. unfold String.leb. by rewrite compare_refl. Qed.

Lemma string_leb_trans (x y z : string) :
  String.leb x y = true -> String.leb y z = true -> String.leb x z = true.
Proof.
  intros Hxy%Is_true_true Hyz%Is_true_true. apply Is_true_true.
  change (String.le x z). by etrans.
Qed.

(** The cell returns one record per kept function name, the names in
    ascending order: a name has a record exactly when some row of
    [duckdb_functions()] carries it and it passes the generated filter. *)
Theorem functions_one_record_per_name (c : catalog) (P : list string)
    (fns : list function_overloads) :
  functions c P = Some fns ->
  Sorted String.le (map fo_function_name fns)
  /\ NoDup (map fo_function_name fns)
  /\ exists keep,
       Sql.where_ "function_name" (filter_keywords_query "function_name" P)
       = Some keep
       /\ forall name,
            name ∈ map fo_function_name fns
            <-> (exists row, row ∈ duckdb_functions c
                             /\ function_name row = name)
                /\ keep name = true.
Proof.
  intros Hfns. split; [|split; [by eapply functions_names_nodup|]].
  - apply functions_inv in Hfns as (keep & _ & ->). simpl.
    rewrite map_map. simpl. rewrite map_id. apply distinct_ordered_sorted.
  - apply functions_inv in Hfns as (keep & Hw & ->). exists keep.
    split; [done|]. intros name. simpl.
    rewrite map_map. simpl. rewrite map_id, distinct_ordered_elem.
    rewrite list_elem_of_fmap. split.
    + intros (row & -> & [Hk Hrow]%list_elem_of_filter).
      split; [by exists row|by apply Is_true_true].
    + intros [(row & Hrow & <-) Hk]. exists row. split; [done|].
      apply list_elem_of_filter. split; [by apply Is_true_true|done].
Qed.

Lemma functions_one_record_per_name_witness :
  exists fns,
    functions sample_catalog EXCLUDED_KEYWORDS = Some fns
    /\ map fo_function_name fns = ["abs"; "count"; "json_extract"]
    /\ Sorted String.le (map fo_function_name fns).
Proof.
  destruct (functions sample_catalog EXCLUDED_KEYWORDS) as [fns|] eqn:E;
    [|vm_compute in E; discriminate E].
  exists fns. split; [done|]. split.
  - vm_compute in E. injection E as <-. reflexivity.
  - apply (functions_one_record_per_name _ _ _ E).
Defined.

(** A record gathers every overload row the catalog has for its name, in
    row order, so its three arrays have one entry per overload row and at
    least one.  Its description is NULL exactly when every overload's is;
    otherwise it is the description of one of the overloads and no
    overload has a greater one. *)
Theorem functions_record_aggregates (c : catalog) (P : list string)
    (fns : list function_overloads) (r : function_overloads) :
  functions c P = Some fns -> r ∈ fns ->
  let group := group_of (fo_function_name r) (duckdb_functions c) in
  (parameter_overloads r = map parameters group
   /\ return_type_overloads r = map return_type group
   /\ parameter_types_overloads r = map parameter_types group
   /\ 0 < length group)
  /\ (fo_description r = None
      <-> forall row, row ∈ group -> description row = None)
  /\ (forall d, fo_description r = Some d ->
        (exists row, row ∈ group /\ description row = Some d)
        /\ forall row d', row ∈ group -> description row = Some d' ->
                          String.leb d' d = true).
Proof.
  intros Hfns Hr.
  destruct (functions_elem c P fns r Hfns Hr) as [Hne Heq].
  set (group := group_of (fo_function_name r) (duckdb_functions c)) in *.
  simpl. split.
  - rewrite Heq. simpl. repeat split. destruct group; [done|simpl; lia].
  - assert (Hd : fo_description r
                 = Agg.max String.leb (map description group)).
    { rewrite Heq at 1. reflexivity. }
    rewrite Hd.
    pose proof (max_spec String.leb (map description group)
                  string_leb_refl String.leb_total string_leb_trans) as Hmax.
    destruct (Agg.max String.leb (map description group)) as [m|].
    + destruct Hmax as [Hin Hall]. split.
      * split; [done|]. intros H.
        apply list_elem_of_fmap in Hin as (row & Hrow & Hin).
        rewrite (H row Hin) in Hrow. discriminate.
      * intros d [= <-]. split.
        -- apply list_elem_of_fmap in Hin as (row & Hrow & Hin).
           by exists row.
        -- intros row d' Hrow Hd'. apply Hall. rewrite <- Hd'.
           by apply list_elem_of_fmap_2.
    + split; [|done]. split; [|done]. intros _ row Hrow.
      apply Hmax. by apply list_elem_of_fmap_2.
Qed.

Lemma functions_record_aggregates_witness :
  exists fns r,
    functions sample_catalog EXCLUDED_KEYWORDS = Some fns /\ r ∈ fns
    /\ fo_function_name r = "json_extract"
    /\ length (parameter_overloads r) = 2
    /\ fo_description r = Some "Extracts".
Proof.
  destruct (functions sample_catalog EXCLUDED_KEYWORDS) as [fns|] eqn:E;
    [|vm_compute in E; discriminate E].
  pose (r := aggregate_group "json_extract"
               (group_of "json_extract" (duckdb_functions sample_catalog))).
  assert (Hr : r ∈ fns).
  { vm_compute in E. injection E as <-. vm_compute. in_list. }
  exists fns, r. split; [done|]. split; [done|]. split; [reflexivity|].
  destruct (functions_record_aggregates _ _ _ _ E Hr) as ((Hp & _) & _).
  split; [by rewrite Hp|reflexivity].
Defined.

(** what the specification's reading of the example finds in the rows *)
Lemma spec_first_example_spec (name : string) (rows : list function_row) :
  match spec_first_example name rows with
  | None => forall row, row ∈ group_of name rows ->
                        Agg.first (examples row) = None
  | Some e => exists row, row ∈ group_of name rows
                          /\ Agg.first (examples row) = Some e
  end.
Proof.
  unfold group_of. induction rows as [|r rows IH]; simpl.
  - intros row Hrow. by apply elem_of_nil in Hrow.
  - rewrite filter_cons.
    destruct (decide (function_name r = name)) as [Hn|Hn]; [|exact IH].
    destruct (Agg.first (examples r)) as [e|] eqn:Ee.
    + exists r. split; [apply list_elem_of_here|done].
    + destruct (spec_first_example name rows) as [e|].
      * destruct IH as (row & Hrow & He). exists row.
        split; [by apply list_elem_of_further|done].
      * intros row [->|Hrow]%elem_of_cons; [done|by apply IH].
Qed.

(** Where the overloads of a name that have an example agree on their
    first example (the query's own assumption), the recorded example is
    the first example of the first overload that has one. *)
Theorem example_of_agreeing_overloads (c : catalog) (P : list string)
    (fns : list function_overloads) (r : function_overloads) :
  functions c P = Some fns -> r ∈ fns ->
  (forall row row' e e',
     row ∈ group_of (fo_function_name r) (duckdb_functions c) ->
     row' ∈ group_of (fo_function_name r) (duckdb_functions c) ->
     Agg.first (examples row) = Some e ->
     Agg.first (examples row') = Some e' -> e = e') ->
  example r = spec_first_example (fo_function_name r) (duckdb_functions c).
Proof.
  intros Hfns Hr Hagree.
  destruct (functions_elem c P fns r Hfns Hr) as [_ Heq].
  pose proof (spec_first_example_spec (fo_function_name r)
                (duckdb_functions c)) as Hspec.
  set (group := group_of (fo_function_name r) (duckdb_functions c)) in *.
  assert (Hex : example r
                = Agg.first (Agg.max Agg.list_leb (map examples group))).
  { rewrite Heq at 1. reflexivity. }
  rewrite Hex. clear Hex Heq.
  pose proof (max_spec Agg.list_leb (map examples group)
                list_leb_refl list_leb_total list_leb_trans) as Hmax.
  destruct (Agg.max Agg.list_leb (map examples group)) as [[|e0 rest]|].
  - destruct Hmax as [_ Hall].
    destruct (spec_first_example _ _) as [e|]; [|done].
    destruct Hspec as (row & Hrow & He).
    destruct (examples row) as [l|] eqn:El; [|done].
    assert (Agg.list_leb l [] = true) as ->%list_leb_nil_r; [|done].
    apply Hall. rewrite <- El. by apply list_elem_of_fmap_2.
  - destruct Hmax as [Hin _].
    apply list_elem_of_fmap in Hin as (row & Hrow & Hin).
    destruct (spec_first_example _ _) as [e|].
    + destruct Hspec as (row' & Hrow' & He). simpl. f_equal.
      apply (Hagree row row' e0 e Hin Hrow'); [by rewrite <- Hrow|done].
    + specialize (Hspec row Hin). rewrite <- Hrow in Hspec. discriminate.
  - destruct (spec_first_example _ _) as [e|]; [|done].
    destruct Hspec as (row & Hrow & He).
    rewrite (Hmax (examples row)) in He; [done|].
    by apply list_elem_of_fmap_2.
Qed.

Lemma example_of_agreeing_overloads_witness :
  exists fns r,
    functions agreeing_catalog EXCLUDED_KEYWORDS = Some fns /\ r ∈ fns
    /\ fo_function_name r = "trim"
    /\ length (group_of "trim" (duckdb_functions agreeing_catalog)) = 3
    /\ example r = Some "trim(' a ')"
    /\ spec_first_example "trim" (duckdb_functions agreeing_catalog)
       = Some "trim(' a ')".
Proof.
  destruct (functions agreeing_catalog EXCLUDED_KEYWORDS) as [fns|] eqn:E;
    [|vm_compute in E; discriminate E].
  pose (r := aggregate_group "trim"
               (group_of "trim" (duckdb_functions agreeing_catalog))).
  assert (Hr : r ∈ fns).
  { vm_compute in E. injection E as <-. vm_compute. in_list. }
  exists fns, r. split; [done|]. split; [done|]. split; [reflexivity|].
  split; [reflexivity|].
  assert (Hex : example r
                = spec_first_example (fo_function_name r)
                    (duckdb_functions agreeing_catalog)).
  { apply (example_of_agreeing_overloads _ _ _ _ E Hr).
    intros row row' e e' Hrow Hrow' He He'.
    vm_compute in Hrow, Hrow'.
    apply elem_of_cons in Hrow as [->|Hrow];
      [|apply elem_of_cons in Hrow as [->|Hrow];
        [|apply list_elem_of_singleton in Hrow as ->]];
      (apply elem_of_cons in Hrow' as [->|Hrow'];
       [|apply elem_of_cons in Hrow' as [->|Hrow'];
         [|apply list_elem_of_singleton in Hrow' as ->]]);
      vm_compute in He, He'; congruence. }
  split; [reflexivity|].
  transitivity (example r); [symmetry; exact Hex|reflexivity].
Defined.

(** ** The [df] cell and the counting cell *)

Lemma builtin_keywords_elem (c : catalog) (n : string) :
  n ∈ builtin_keywords c <-> n ∈ duckdb_keywords c \/ n ∈ duckdb_settings c.
Proof.
  unfold builtin_keywords, stg_keywords.
  rewrite list_elem_of_fmap. split.
  - intros ([g m] & -> & [Hg Hin]%list_elem_of_filter). simpl in *.
    rewrite !elem_of_app, !list_elem_of_fmap in Hin.
    destruct Hin as [(x & [= _ ->] & Hx)|[(x & [= _ ->] & Hx)
                    |[(x & [= -> _] & Hx)|(x & [= -> _] & Hx)]]];
      [by left | by right | by destruct Hg | by destruct Hg].
  - intros [Hn|Hn].
    + exists ("duckdb_keywords", n). split; [done|].
      apply list_elem_of_filter. split; [by left|].
      rewrite !elem_of_app. left. by apply list_elem_of_fmap_2.
    + exists ("duckdb_settings", n). split; [done|].
      apply list_elem_of_filter. split; [by right|].
      rewrite !elem_of_app. right; left. by apply list_elem_of_fmap_2.
Qed.

(** The [builtin] string is built without the exclusion list: whatever the
    prefixes, it joins, in ascending order and once each, exactly the names
    of [duckdb_keywords()] and [duckdb_settings()]. *)
Theorem builtin_ignores_exclusions (c : catalog) (P : list string)
    (v : string) (d : date) (frame : DataFrame) :
  df c P v d = Some frame ->
  exists r bk,
    frame = [r]
    /\ field "builtin" r = Some (Text (Agg.join_or_null bk))
    /\ Sorted String.le bk /\ NoDup bk
    /\ forall n, n ∈ bk <-> n ∈ duckdb_keywords c \/ n ∈ duckdb_settings c.
Proof.
  intros (keep & _ & ->)%df_inv.
  exists (df_row keep c v d), (Agg.distinct_ordered (builtin_keywords c)).
  split; [done|]. split; [reflexivity|].
  split; [apply distinct_ordered_sorted|].
  split; [apply distinct_ordered_nodup|].
  intros n. rewrite distinct_ordered_elem. apply builtin_keywords_elem.
Qed.

Lemma builtin_ignores_exclusions_witness :
  exists frame r,
    df sample_catalog EXCLUDED_KEYWORDS "v1.3.2" sample_date = Some frame
    /\ frame = [r]
    /\ field "builtin" r = Some (Text (Some "group pg_catalog select threads")).
Proof.
  destruct (df sample_catalog EXCLUDED_KEYWORDS "v1.3.2" sample_date)
    as [frame|] eqn:E; [|vm_compute in E; discriminate E].
  destruct (builtin_ignores_exclusions _ _ _ _ _ E) as (r & bk & -> & _).
  exists [r], r. split; [done|]. split; [done|].
  vm_compute in E. injection E as <-. reflexivity.
Defined.

Lemma distinct_ordered_nil (values : list string) :
  Agg.distinct_ordered values = [] <-> values = [].
Proof.
  split.
  - intros H. apply elem_of_nil_inv. intros x Hx.
    apply distinct_ordered_elem in Hx. rewrite H in Hx.
    by apply elem_of_nil in Hx.
  - by intros ->.
Qed.

(** When no catalog name passes the filter (an empty catalog included) the
    [keywords] cell of the frame is NULL, not the empty string, and only
    then; the counting cell then has nothing to split. *)
Theorem keywords_null_when_nothing_kept (c : catalog) (P : list string)
    (v : string) (d : date) (frame : DataFrame) :
  df c P v d = Some frame ->
  exists keep r,
    Sql.where_ "keyword" (filter_keywords_query "keyword" P) = Some keep
    /\ frame = [r]
    /\ (field "keywords" r = Some (Text None)
        <-> forall n, n ∈ catalog_names c -> keep n = false)
    /\ (field "keywords" r = Some (Text None) -> num_keywords frame = None).
Proof.
  intros (keep & Hw & ->)%df_inv.
  exists keep, (df_row keep c v d). split; [done|]. split; [done|].
  change (field "keywords" (df_row keep c v d))
    with (Some (Text (Agg.join_or_null
                        (Agg.distinct_ordered (all_keywords keep c))))).
  split.
  - split.
    + intros H n Hn. destruct (keep n) eqn:Hk; [|done].
      assert (n ∈ Agg.distinct_ordered (all_keywords keep c)) as Hin.
      { by apply distinct_ordered_elem, all_keywords_elem. }
      destruct (Agg.distinct_ordered (all_keywords keep c)); [|done].
      by apply elem_of_nil in Hin.
    + intros H.
      assert (Agg.distinct_ordered (all_keywords keep c) = []) as ->; [|done].
      apply distinct_ordered_nil, elem_of_nil_inv. intros n Hn.
      apply all_keywords_elem in Hn as [Hn Hk]. rewrite (H n Hn) in Hk.
      discriminate.
  - intros H. unfold num_keywords, tokens.
    change (field "keywords" (df_row keep c v d))
      with (Some (Text (Agg.join_or_null
                          (Agg.distinct_ordered (all_keywords keep c))))).
    by rewrite H.
Qed.

Lemma keywords_null_when_nothing_kept_witness :
  let empty := {| duckdb_keywords := []; duckdb_settings := [];
                  duckdb_functions := []; duckdb_types := [] |} in
  exists frame r,
    df empty EXCLUDED_KEYWORDS "v1.3.2" sample_date = Some frame
    /\ frame = [r] /\ field "keywords" r = Some (Text None)
    /\ num_keywords frame = None.
Proof.
  intros empty.
  destruct (df empty EXCLUDED_KEYWORDS "v1.3.2" sample_date)
    as [frame|] eqn:E; [|vm_compute in E; discriminate E].
  destruct (keywords_null_when_nothing_kept _ _ _ _ _ E)
    as (keep & r & _ & -> & [_ Hnull] & Hnum).
  assert (field "keywords" r = Some (Text None)) as H.
  { apply Hnull. intros n Hn. vm_compute in Hn. by apply elem_of_nil in Hn. }
  exists [r], r. split; [done|]. split; [done|]. split; [done|]. auto.
Defined.

(** With names that hold no space, the counting cell reports the number of
    distinct kept names and the number of distinct type names; each count
    has no value when there is no such name. *)
Theorem counts_are_distinct_names (c : catalog) (P : list string)
    (v : string) (d : date) (frame : DataFrame) :
  space_free c -> df c P v d = Some frame ->
  exists keep (kw ty : list string),
    Sql.where_ "keyword" (filter_keywords_query "keyword" P) = Some keep
    /\ NoDup kw
    /\ (forall n, n ∈ kw <-> n ∈ catalog_names c /\ keep n = true)
    /\ NoDup ty
    /\ (forall n, n ∈ ty <-> n ∈ duckdb_types c)
    /\ num_keywords frame
       = (if decide (kw = []) then None else Some (length kw))
    /\ num_types frame
       = (if decide (ty = []) then None else Some (length ty)).
Proof.
  intros Hfree (keep & Hw & ->)%df_inv.
  unfold space_free in Hfree. rewrite Forall_forall in Hfree.
  exists keep, (Agg.distinct_ordered (all_keywords keep c)),
    (Agg.distinct_ordered (duckdb_types c)).
  split; [done|]. split; [apply distinct_ordered_nodup|]. split.
  { intros n. rewrite distinct_ordered_elem. apply all_keywords_elem. }
  split; [apply distinct_ordered_nodup|].
  split; [apply distinct_ordered_elem|].
  assert (Hcount : forall column names,
            field column (df_row keep c v d)
            = Some (Text (Agg.join_or_null names)) ->
            (forall n, n ∈ names -> n ∈ catalog_names c) ->
            length <$> tokens column [df_row keep c v d]
            = (if decide (names = []) then None else Some (length names))).
  { intros column names Hf Hsub. unfold tokens. rewrite Hf.
    destruct names as [|n names]; [done|].
    change (Agg.join_or_null (n :: names))
      with (Some (Str.join " " (n :: names))).
    cbv beta iota.
    rewrite (split_on_join (n :: names)); [done|done|].
    apply Forall_forall. intros m Hm. by apply Hfree, Hsub. }
  split.
  - apply Hcount; [reflexivity|]. intros n Hn.
    by apply distinct_ordered_elem, all_keywords_elem in Hn as [? _].
  - apply Hcount; [reflexivity|]. intros n Hn.
    by apply types_in_catalog_names, distinct_ordered_elem.
Qed.

Lemma counts_are_distinct_names_witness :
  exists frame,
    df sample_catalog EXCLUDED_KEYWORDS "v1.3.2" sample_date = Some frame
    /\ num_keywords frame = Some 8 /\ num_types frame = Some 3.
Proof.
  destruct (df sample_catalog EXCLUDED_KEYWORDS "v1.3.2" sample_date)
    as [frame|] eqn:E; [|vm_compute in E; discriminate E].
  destruct (counts_are_distinct_names sample_catalog EXCLUDED_KEYWORDS
              "v1.3.2" sample_date frame
              ltac:(unfold space_free; vm_compute; repeat constructor) E)
    as (keep & kw & ty & _).
  exists frame. split; [done|].
  vm_compute in E. injection E as <-. split; reflexivity.
Defined.

(** ** The order of the exported dictionary *)

Lemma dict_set_fresh {V} (d : pydict V) (k : string) (v : V) :
  k ∉ map fst d -> dict_set d k v = d ++ [(k, v)].
Proof.
  induction d as [|[k0 v0] d IH]; simpl; [done|].
  intros [Hne Hk]%not_elem_of_cons.
  apply not_eq_sym, String.eqb_neq in Hne. rewrite Hne. by rewrite IH.
Qed.

Lemma fold_dict_set_fresh (d : pydict fn_entry) (rows : list function_overloads) :
  NoDup (map fst d ++ map fo_function_name rows) ->
  foldl (fun d r =>
           dict_set d (fo_function_name r)
             {| entry_description := fo_description r;
                entry_example := example r |}) d rows
  = d ++ map (fun r => (fo_function_name r,
                        {| entry_description := fo_description r;
                           entry_example := example r |})) rows.
Proof.
  revert d. induction rows as [|r rows IH]; intros d Hnd; simpl.
  - by rewrite app_nil_r.
  - assert (fo_function_name r ∉ map fst d) as Hfresh.
    { apply NoDup_app in Hnd as (_ & Hdis & _). intros Hin.
      apply (Hdis _ Hin). simpl. apply list_elem_of_here. }
    rewrite dict_set_fresh by done. rewrite IH.
    + by rewrite <- app_assoc.
    + rewrite map_app, <- app_assoc. exact Hnd.
Qed.

Lemma strongly_sorted_names_filter (Q : function_overloads -> Prop)
    `{forall r, Decision (Q r)} (l : list function_overloads) :
  StronglySorted String.le (map fo_function_name l) ->
  StronglySorted String.le (map fo_function_name (filter Q l)).
Proof.
  induction l as [|x l IH]; simpl; [done|].
  intros [Hall Hs]%StronglySorted_cons. rewrite filter_cons.
  destruct (decide (Q x)); [|by apply IH]. simpl.
  apply StronglySorted_cons. split; [|by apply IH].
  rewrite Forall_forall in Hall. apply Forall_forall. intros n Hn.
  apply Hall. apply list_elem_of_fmap in Hn as (y & -> & Hy).
  apply list_elem_of_filter in Hy as [_ Hy]. by apply list_elem_of_fmap_2.
Qed.

(** No assignment in the selector's loop lands on a key that is already
    there: the dictionary holds one entry per selected record, in the order
    of the records, so its keys come in ascending order, each once. *)
Theorem fn_dict_in_name_order (c : catalog) (P : list string)
    (fns : list function_overloads) :
  functions c P = Some fns ->
  fn_dict fns
  = map (fun r => (fo_function_name r,
                   {| entry_description := fo_description r;
                      entry_example := example r |}))
        (filtered_fn included_functions fns)
  /\ Sorted String.le (map fst (fn_dict fns))
  /\ NoDup (map fst (fn_dict fns)).
Proof.
  intros Hfns.
  assert (Hss : StronglySorted String.le
                  (map fo_function_name (filtered_fn included_functions fns))).
  { apply strongly_sorted_names_filter, Sorted_StronglySorted; [apply _|].
    apply functions_inv in Hfns as (keep & _ & ->). simpl.
    rewrite map_map. simpl. rewrite map_id. apply distinct_ordered_sorted. }
  assert (Hnd : NoDup (map fo_function_name
                         (filtered_fn included_functions fns))).
  { apply (sublist_NoDup _ (map fo_function_name fns));
      [by eapply functions_names_nodup
      |apply (fmap_sublist fo_function_name), sublist_filter]. }
  assert (Heq : fn_dict fns
                = map (fun r => (fo_function_name r,
                                 {| entry_description := fo_description r;
                                    entry_example := example r |}))
                      (filtered_fn included_functions fns)).
  { unfold fn_dict, fn_dict_of. by rewrite fold_dict_set_fresh. }
  split; [exact Heq|]. rewrite Heq, map_map. simpl.
  split; [by apply StronglySorted_Sorted|done].
Qed.

Lemma fn_dict_in_name_order_witness :
  exists fns,
    functions sample_catalog EXCLUDED_KEYWORDS = Some fns
    /\ map fst (fn_dict fns) = ["json_extract"]
    /\ NoDup (map fst (fn_dict fns)).
Proof.
  destruct (functions sample_catalog EXCLUDED_KEYWORDS) as [fns|] eqn:E;
    [|vm_compute in E; discriminate E].
  exists fns. split; [done|]. split.
  - vm_compute in E. injection E as <-. reflexivity.
  - apply (fn_dict_in_name_order _ _ _ E).
Defined.

(** ** Writers and the disk *)

Lemma removelast_ne (q : Fs.path) : q <> [] -> removelast q <> q.
Proof.
  intros Hq Heq. pose proof (app_removelast_last "" Hq) as H.
  rewrite Heq in H. by apply (child_ne_parent q (List.last q "")).
Qed.

Lemma write_twice (p : string) (data data' : Fs.document) (fs fs1 : Fs.state) :
  Fs.write p data fs = (Fs.Ok tt, fs1) ->
  Fs.write p data' fs1
  = (Fs.Ok tt, <[Fs.components p := Fs.File data']> fs).
Proof.
  unfold Fs.write. destruct (decide (p = "")); [done|].
  destruct (Fs.is_dir fs (removelast (Fs.components p))) eqn:Hpar;
    simpl; [|done].
  destruct (Fs.is_dir fs (Fs.components p)) eqn:Hq; [done|].
  intros [= <-]. pose proof (is_dir_nil_false _ _ Hq) as Hne.
  rewrite is_dir_insert_ne, Hpar by by apply removelast_ne.
  simpl. rewrite is_dir_file by done. by rewrite insert_insert_eq.
Qed.

(** Both writers replace what the path held: writing a second document
    where the first write succeeded also succeeds, and the disk is then
    the one a single write of the second document gives.  The frame writer
    stores every column but [builtin], for any number of rows. *)
Theorem writers_overwrite (filepath : string) (fs fs1 : Fs.state) :
  (forall obj obj',
     save_to_json obj filepath fs = (Fs.Ok tt, fs1) ->
     save_to_json obj' filepath fs1
     = (Fs.Ok tt,
        <[Fs.components filepath := Fs.File (Fs.JsonDump obj' 4)]> fs))
  /\ (forall frame frame',
        write_to_file frame filepath fs = (Fs.Ok tt, fs1) ->
        write_to_file frame' filepath fs1
        = (Fs.Ok tt,
           <[Fs.components filepath
             := Fs.File (Fs.WriteJson (select_exclude "builtin" frame'))]> fs)
        /\ length (select_exclude "builtin" frame') = length frame'
        /\ forall i r column,
             frame' !! i = Some r -> column <> "builtin" ->
             exists r', select_exclude "builtin" frame' !! i = Some r'
                        /\ field column r' = field column r
                        /\ field "builtin" r' = None).
Proof.
  split.
  - intros obj obj' H. by apply (write_twice _ _ _ _ _ H).
  - intros frame frame' H. split; [by apply (write_twice _ _ _ _ _ H)|].
    unfold select_exclude. split; [apply length_map|].
    intros i r column Hi Hc.
    exists (filter (fun col : string * cell => col.1 <> "builtin") r).
    split; [|split].
    + pose (f := filter (fun col : string * cell => col.1 <> "builtin")
                 : list (string * cell) -> list (string * cell)).
      exact (eq_trans (list_lookup_fmap f frame' i)
               (f_equal (fmap (M:=option) f) Hi)).
    + rewrite field_exclude.
      apply not_eq_sym, String.eqb_neq in Hc. by rewrite Hc.
    + by rewrite field_exclude.
Qed.

Lemma writers_overwrite_witness :
  exists fs1,
    save_to_json [] "functions.json" ∅ = (Fs.Ok tt, fs1)
    /\ save_to_json [("abs", {| entry_description := Some "Absolute value";
                                entry_example := None |})]
         "functions.json" fs1
       = (Fs.Ok tt,
          <[ ["functions.json"]
             := Fs.File (Fs.JsonDump
                           [("abs", {| entry_description := Some "Absolute value";
                                       entry_example := None |})] 4) ]> ∅).
Proof.
  exists (<[ ["functions.json"] := Fs.File (Fs.JsonDump [] 4) ]> ∅).
  split; [reflexivity|].
  destruct (writers_overwrite "functions.json" ∅
              (<[ ["functions.json"] := Fs.File (Fs.JsonDump [] 4) ]> ∅))
    as [Hjson _].
  apply (Hjson []). reflexivity.
Defined.

(** what [os.makedirs] touches: nothing that exists, only missing
    directories along the path *)
Lemma makedirs_from_frame (base todo : Fs.path) (fs fs' : Fs.state)
    (res : Fs.outcome unit) :
  Fs.makedirs_from base todo fs = (res, fs') ->
  forall p,
    fs' !! p = fs !! p
    \/ (fs !! p = None /\ fs' !! p = Some Fs.Dir
        /\ exists k, 1 <= k /\ p = base ++ take k todo).
Proof.
  revert base fs. induction todo as [|name rest IH]; intros base fs.
  - intros [= _ <-] p. by left.
  - simpl. destruct (fs !! (base ++ [name])) as [[data|]|] eqn:E.
    + destruct rest; intros [= _ <-] p; by left.
    + destruct rest as [|name' rest']; [intros [= _ <-] p; by left|].
      intros H p. destruct (IH _ _ H p) as [Hp|(Hn & Hd & k & Hk & ->)];
        [by left|right].
      split; [done|]. split; [done|]. exists (S k). split; [lia|].
      by rewrite <- app_assoc.
    + intros H p.
      assert (Hrec : Fs.makedirs_from (base ++ [name]) rest
                       (<[base ++ [name] := Fs.Dir]> fs) = (res, fs')).
      { by destruct rest. }
      destruct (decide (p = base ++ [name])) as [->|Hp].
      * right. split; [done|]. split.
        -- destruct (IH _ _ Hrec (base ++ [name])) as [->|(Hn & _)].
           ++ by rewrite lookup_insert_eq.
           ++ by rewrite lookup_insert_eq in Hn.
        -- exists 1. split; [lia|]. by destruct rest.
      * destruct (IH _ _ Hrec p) as [Hsame|(Hn & Hd & k & Hk & ->)].
        -- left. by rewrite Hsame, lookup_insert_ne.
        -- right. rewrite lookup_insert_ne in Hn by done.
           split; [done|]. split; [done|]. exists (S k). split; [lia|].
           by rewrite <- app_assoc.
Qed.

(** [os.makedirs] succeeds when the target is missing and no name on the
    way to it is a file *)
Lemma makedirs_from_ok (base todo : Fs.path) (fs : Fs.state) :
  todo <> [] ->
  (forall k data, 1 <= k ->
                  fs !! (base ++ take k todo) <> Some (Fs.File data)) ->
  fs !! (base ++ todo) = None ->
  exists fs',
    Fs.makedirs_from base todo fs = (Fs.Ok tt, fs')
    /\ fs' !! (base ++ todo) = Some Fs.Dir.
Proof.
  revert base fs. induction todo as [|name rest IH]; intros base fs Hne Hfile Hnone;
    [done|].
  destruct rest as [|name' rest'].
  - simpl. rewrite Hnone. eexists. split; [reflexivity|].
    by rewrite lookup_insert_eq.
  - simpl. set (q1 := base ++ [name]).
    assert (Hlong : forall tail : Fs.path, tail <> [] -> q1 ++ tail <> q1).
    { intros tail Ht Heq. apply Ht.
      apply (app_inv_head q1). by rewrite app_nil_r. }
    destruct (fs !! q1) as [[data|]|] eqn:E.
    + exfalso. apply (Hfile 1 data); [lia|]. exact E.
    + destruct (IH q1 fs) as (fs' & Hrun & Hdir); [done| | |].
      * intros k data Hk. unfold q1. rewrite <- app_assoc.
        apply (Hfile (S k) data). lia.
      * unfold q1. by rewrite <- app_assoc.
      * exists fs'. split; [exact Hrun|].
        unfold q1 in Hdir. by rewrite <- app_assoc in Hdir.
    + destruct (IH q1 (<[q1 := Fs.Dir]> fs)) as (fs' & Hrun & Hdir); [done| | |].
      * intros k data Hk. rewrite lookup_insert_ne.
        -- unfold q1. rewrite <- app_assoc. apply (Hfile (S k) data). lia.
        -- apply not_eq_sym, Hlong. destruct k; [lia|done].
      * rewrite lookup_insert_ne by (apply not_eq_sym, Hlong; done).
        unfold q1. by rewrite <- app_assoc.
      * exists fs'. split; [exact Hrun|].
        unfold q1 in Hdir. by rewrite <- app_assoc in Hdir.
Qed.

(** ** The export cell on any disk *)

Lemma bind_inv {A B} (m : Fs.M A) (k : A -> Fs.M B) (fs fs' : Fs.state)
    (res : Fs.outcome B) :
  Fs.bind m k fs = (res, fs') ->
  (exists e, m fs = (Fs.Raised e, fs') /\ res = Fs.Raised e)
  \/ exists a fs0, m fs = (Fs.Ok a, fs0) /\ k a fs0 = (res, fs').
Proof.
  unfold Fs.bind. destruct (m fs) as [[a|e] fs0].
  - intros H. right. by exists a, fs0.
  - intros [= <- <-]. left. by exists e.
Qed.

Lemma bind_intro {A B} (m : Fs.M A) (k : A -> Fs.M B) (fs fs0 : Fs.state)
    (a : A) (r : Fs.outcome B * Fs.state) :
  m fs = (Fs.Ok a, fs0) -> k a fs0 = r -> Fs.bind m k fs = r.
Proof. unfold Fs.bind. by intros -> ->. Qed.

Lemma write_outcome (p : string) (data : Fs.document) (fs fs' : Fs.state)
    (res : Fs.outcome unit) :
  Fs.write p data fs = (res, fs') ->
  fs' = fs \/ fs' = <[Fs.components p := Fs.File data]> fs.
Proof.
  destruct res as [[]|e]; intros H.
  - right. by apply write_ok in H as (_ & _ & ->).
  - left. by apply write_raised in H.
Qed.

Lemma write_succeeds (p : string) (data : Fs.document) (fs : Fs.state) :
  p <> "" ->
  Fs.is_dir fs (removelast (Fs.components p)) = true ->
  Fs.components p <> [] ->
  fs !! Fs.components p <> Some Fs.Dir ->
  Fs.write p data fs = (Fs.Ok tt, <[Fs.components p := Fs.File data]> fs).
Proof.
  intros Hp Hpar Hne Hnd. unfold Fs.write.
  destruct (decide (p = "")); [done|]. rewrite Hpar. simpl.
  assert (Fs.is_dir fs (Fs.components p) = false) as ->; [|done].
  unfold Fs.is_dir. destruct (Fs.components p); [done|].
  by destruct (fs !! _) as [[]|].
Qed.

(** the step before the writes: look for the folder, make it when missing *)
Lemma prepare_frame (s : string) (fs fs0 : Fs.state) (r0 : Fs.outcome unit) :
  Fs.bind (Fs.exists_ s)
    (fun found => if negb found then Fs.makedirs s else Fs.ret tt) fs
  = (r0, fs0) ->
  forall p,
    fs0 !! p = fs !! p
    \/ (fs !! p = None /\ fs0 !! p = Some Fs.Dir
        /\ exists k, 1 <= k /\ p = take k (Fs.components s)).
Proof.
  unfold Fs.bind, Fs.exists_.
  destruct (if decide (s = "") then false
            else Fs.present fs (Fs.components s)); simpl.
  - intros [= _ <-] p. by left.
  - unfold Fs.makedirs. destruct (decide (s = "")); [intros [= _ <-]; by left|].
    destruct (Fs.components s) as [|x q] eqn:Eq; [intros [= _ <-]; by left|].
    intros H p. exact (makedirs_from_frame [] (x :: q) fs fs0 r0 H p).
Qed.

Lemma prepare_ok (s : string) (fs : Fs.state) :
  s <> "" ->
  (forall k data, 1 <= k ->
                  fs !! take k (Fs.components s) <> Some (Fs.File data)) ->
  exists fs0,
    Fs.bind (Fs.exists_ s)
      (fun found => if negb found then Fs.makedirs s else Fs.ret tt) fs
    = (Fs.Ok tt, fs0)
    /\ Fs.is_dir fs0 (Fs.components s) = true.
Proof.
  intros Hs Hfile. unfold Fs.bind, Fs.exists_, Fs.makedirs.
  destruct (decide (s = "")); [done|].
  destruct (Fs.components s) as [|x q] eqn:Eq.
  - exists fs. by split.
  - unfold Fs.present, Fs.is_dir.
    destruct (fs !! (x :: q)) as [[data|]|] eqn:E; simpl.
    + exfalso. apply (Hfile (length (x :: q)) data); [simpl; lia|].
      by rewrite firstn_all.
    + exists fs. split; [done|]. by rewrite E.
    + destruct (makedirs_from_ok [] (x :: q) fs) as (fs0 & Hrun & Hdir);
        [done|exact Hfile|exact E|].
      exists fs0. split; [exact Hrun|]. simpl in Hdir. by rewrite Hdir.
Qed.

Lemma child_not_prefix (q : Fs.path) (name : string) (k : nat) :
  q ++ [name] <> take k q.
Proof.
  intros H. apply (f_equal length) in H.
  rewrite length_app, length_take in H. simpl in H. lia.
Qed.

Lemma strip_nonempty (s : string) : Str.strip s <> "" -> s <> "".
Proof. by intros H ->. Qed.

Section ExportOnAnyDisk.

Variables (frame : DataFrame) (obj : pydict fn_entry).


Lemma export_completes (mode args_savepath s : string) (fs : Fs.state) :
  mode <> "script" -> Str.strip s <> "" ->
  (forall k data, 1 <= k ->
                  fs !! take k (Fs.components s) <> Some (Fs.File data)) ->
  fs !! Fs.components (s +:+ "/keywords.json") <> Some Fs.Dir ->
  fs !! Fs.components (s +:+ "/functions.json") <> Some Fs.Dir ->
  exists fs',
    export_cell mode args_savepath (Some s) frame obj fs = (Fs.Ok tt, fs')
    /\ Fs.is_dir fs' (Fs.components s) = true
    /\ fs' !! Fs.components (s +:+ "/keywords.json")
       = Some (Fs.File (Fs.WriteJson (select_exclude "builtin" frame)))
    /\ fs' !! Fs.components (s +:+ "/functions.json")
       = Some (Fs.File (Fs.JsonDump obj 4)).
Proof.
  intros Hmode Hs Hfile HK HF.
  destruct (prepare_ok s fs (strip_nonempty s Hs) Hfile)
    as (fs0 & Hprep & Hdir).
  pose proof (prepare_frame s fs fs0 _ Hprep) as Hframe.
  rewrite components_keywords in HK. rewrite components_functions in HF.
  assert (HK0 : fs0 !! (Fs.components s ++ ["keywords.json"]) <> Some Fs.Dir).
  { destruct (Hframe (Fs.components s ++ ["keywords.json"]))
      as [->|(_ & _ & k & _ & Hk)]; [done|].
    by apply child_not_prefix in Hk. }
  assert (HF0 : fs0 !! (Fs.components s ++ ["functions.json"]) <> Some Fs.Dir).
  { destruct (Hframe (Fs.components s ++ ["functions.json"]))
      as [->|(_ & _ & k & _ & Hk)]; [done|].
    by apply child_not_prefix in Hk. }
  assert (Hne : Fs.components s ++ ["functions.json"]
                <> Fs.components s ++ ["keywords.json"]).
  { intros H%app_inv_head. discriminate H. }
  set (fs1 := <[Fs.components s ++ ["keywords.json"]
                := Fs.File (Fs.WriteJson (select_exclude "builtin" frame))]> fs0).
  assert (W1 : write_to_file frame (s +:+ "/keywords.json") fs0
               = (Fs.Ok tt, fs1)).
  { unfold write_to_file. rewrite write_succeeds.
    - by rewrite components_keywords.
    - by destruct s.
    - by rewrite components_keywords, removelast_last.
    - rewrite components_keywords. by destruct (Fs.components s).
    - by rewrite components_keywords. }
  assert (W2 : save_to_json obj (s +:+ "/functions.json") fs1
               = (Fs.Ok tt, <[Fs.components s ++ ["functions.json"]
                              := Fs.File (Fs.JsonDump obj 4)]> fs1)).
  { unfold save_to_json. rewrite write_succeeds.
    - by rewrite components_functions.
    - by destruct s.
    - rewrite components_functions, removelast_last. unfold fs1.
      rewrite is_dir_insert_ne; [done|apply child_ne_parent].
    - rewrite components_functions. by destruct (Fs.components s).
    - rewrite components_functions. unfold fs1.
      by rewrite lookup_insert_ne. }
  eexists. split.
  - unfold export_cell.
    apply String.eqb_neq in Hmode, Hs. rewrite Hmode, Hs. cbn [negb].
    eapply bind_intro; [exact Hprep|].
    eapply bind_intro; [exact W1|exact W2].
  - rewrite components_keywords, components_functions. split; [|split].
    + unfold fs1. rewrite !is_dir_insert_ne; [done|apply child_ne_parent..].
    + rewrite lookup_insert_ne by done. unfold fs1.
      by rewrite lookup_insert_eq.
    + by rewrite lookup_insert_eq.
Qed.



End ExportOnAnyDisk.



(** ** A whole run *)



(** What the notebook's own exclusion list removes.  A name is kept unless
    its third to tenth characters spell [internal], or it starts with
    [icu] or [allocator], or it starts with [has] or [pg] and has at
    least one more character. *)
Theorem notebook_filter_drops (name : string) :
  exists keep,
    Sql.where_ "keyword" (filter_keywords_query "keyword" EXCLUDED_KEYWORDS)
    = Some keep
    /\ keep name
       = negb (match name with
               | String _ (String _ rest) => Str.starts_with rest "internal"
               | _ => false
               end
               || Str.starts_with name "icu"
               || (Str.starts_with name "has" && (3 <? String.length name))
               || (Str.starts_with name "pg" && (2 <? String.length name))
               || Str.starts_with name "allocator").
Proof.
  exists (Sql.passes (patterns_of EXCLUDED_KEYWORDS)). split.
  - apply where_generated; [discriminate|vm_compute; repeat constructor].
  - unfold Sql.passes, patterns_of, EXCLUDED_KEYWORDS.
    cbn [map forallb].
    change ("__internal" +:+ "%")
      with (String "_" (String "_" ("internal" +:+ "%"))).
    change ("has_" +:+ "%") with (("has" +:+ "_") +:+ "%").
    change ("pg_" +:+ "%") with (("pg" +:+ "_") +:+ "%").
    rewrite !like_trailing_underscore by reflexivity.
    rewrite !(like_prefix_literal "icu"), !(like_prefix_literal "allocator")
      by reflexivity.
    rewrite like_underscore.
    assert (Hint : match name with
                   | EmptyString => false
                   | String _ v' =>
                       Sql.like (String "_" ("internal" +:+ "%")) v'
                   end
                   = match name with
                     | String _ (String _ rest) =>
                         Str.starts_with rest "internal"
                     | _ => false
                     end).
    { destruct name as [|a [|b rest]]; [done|done|].
      rewrite like_underscore. by apply like_prefix_literal. }
    rewrite Hint.
    change (String.length "has") with 3. change (String.length "pg") with 2.
    rewrite andb_true_r, !negb_orb. by rewrite !andb_assoc.
Qed.

(** ** The two exports together *)

Lemma function_names_in_catalog_names (c : catalog) (row : function_row) :
  row ∈ duckdb_functions c -> function_name row ∈ catalog_names c.
Proof.
  intros H. unfold catalog_names, stg_keywords.
  rewrite !map_app, !elem_of_app. right; right; left.
  rewrite map_map. simpl. rewrite map_id.
  by apply (list_elem_of_fmap_2 function_name).
Qed.

(** For quote-free prefixes, every key of the function dictionary is one
    of the names joined into the exported [keywords] string: both cells
    filter the function names with the same condition. *)
Theorem dictionary_keys_are_keywords (c : catalog) (P : list string)
    (v : string) (d : date) (frame : DataFrame)
    (fns : list function_overloads) :
  Forall (fun kw => quote_free kw = true) P ->
  df c P v d = Some frame -> functions c P = Some fns ->
  exists kw : list string,
    (exists r, select_exclude "builtin" frame = [r]
               /\ field "keywords" r = Some (Text (Agg.join_or_null kw)))
    /\ (forall n, n ∈ kw -> n ∈ catalog_names c)
    /\ forall key, is_Some (dict_get (fn_dict fns) key) -> key ∈ kw.
Proof.
  intros Hq (keep & Hw & ->)%df_inv Hfns.
  apply (where_quote_free _ _ _ Hq) in Hw as ->.
  exists (Agg.distinct_ordered (all_keywords (Sql.passes (patterns_of P)) c)).
  split; [eexists; split; [apply exported_row|reflexivity]|]. split.
  - intros n Hn.
    by apply distinct_ordered_elem, all_keywords_elem in Hn as [? _].
  - intros key (r & Hr & <- & _ & _)%fn_dict_of_keys.
    apply distinct_ordered_elem, all_keywords_elem.
    destruct (functions_names_kept c P fns r Hfns Hr) as (keep' & Hw' & Hk).
    apply (where_quote_free _ _ _ Hq) in Hw' as ->. split; [|exact Hk].
    destruct (functions_elem c P fns r Hfns Hr) as [Hne _].
    destruct (group_of (fo_function_name r) (duckdb_functions c))
      as [|row rest] eqn:Eg; [done|].
    assert (row ∈ group_of (fo_function_name r) (duckdb_functions c)) as Hrow.
    { rewrite Eg. apply list_elem_of_here. }
    apply list_elem_of_filter in Hrow as [<- Hrow].
    by apply function_names_in_catalog_names.
Qed.

Lemma dictionary_keys_are_keywords_witness :
  exists frame fns kw,
    df sample_catalog EXCLUDED_KEYWORDS "v1.3.2" sample_date = Some frame
    /\ functions sample_catalog EXCLUDED_KEYWORDS = Some fns
    /\ (exists r, select_exclude "builtin" frame = [r]
                  /\ field "keywords" r = Some (Text (Agg.join_or_null kw)))
    /\ "json_extract" ∈ kw.
Proof.
  destruct (df sample_catalog EXCLUDED_KEYWORDS "v1.3.2" sample_date)
    as [frame|] eqn:E; [|vm_compute in E; discriminate E].
  destruct (functions sample_catalog EXCLUDED_KEYWORDS) as [fns|] eqn:F;
    [|vm_compute in F; discriminate F].
  destruct (dictionary_keys_are_keywords sample_catalog EXCLUDED_KEYWORDS
              "v1.3.2" sample_date frame fns
              ltac:(vm_compute; repeat constructor) E F)
    as (kw & Hfield & _ & Hkeys).
  exists frame, fns, kw. split; [done|]. split; [done|]. split; [done|].
  apply Hkeys. vm_compute in F. injection F as <-. by eexists.
Defined.
